(** * Hack2Heal-iDoc backend: artifact store, retention sweeper and
      generation gateway

    A shallow embedding of
      - [services/audio_handler.py]    (module [AudioStore]),
      - [services/ai_model_service.py] (module [Gateway]),
      - [services/text_handler.py] and [routes/ai.py], as far as the
        [/generateschedule] route uses them (module [Routes]),
      - [routes/audio.py]              (module [AudioRoutes]),
      - the [/vibestory] route of [routes/ai.py] with
        [TextHandler.save_story] (module [Stories]) and
        [TextHandler.format_for_speech] (module [Speech]),
      - [models/user.py] (modules [UserModel], [TaskModel]) and
        [utils/database.py] (module [Mongo]),
    followed by the properties of the specification that concern them and
    by further properties of the code.

    Modelling conventions.
      - Python [str] is [string]; [bytes] is [list byte]; [int] is [Z].
      - Values that come out of a JSON document ([request.get_json()],
        [response.json()]) are of type [json]; the Python operators the
        code applies to them ([not], [in], [len], [x[k]], [x.get]) are
        given their dynamic meaning on every JSON value.
      - A [datetime] is the number of microseconds from 1970-01-01T00:00:00
        on the calendar the program reads, a [timedelta] a number of
        microseconds; both have the range the library gives them.
      - A storage directory is a finite map from the names of its entries
        to the entries; [directory / filename] addresses the entry of that
        name, and names are taken to hold no path separator.
      - Exceptions are values of type [exn]; code that can raise returns a
        [result]. *)

From Stdlib Require Import ZArith QArith String Ascii List Bool Lia.
From Stdlib.Strings Require Import Byte.
From Stdlib Require Import DecimalString Sorted.
From stdpp Require Import base option list gmap strings fin_maps.

Set Warnings "-register-all".

Open Scope Z_scope.
Open Scope string_scope.

(** ** Python strings *)

Module PyStr.

(** [s.endswith(suffix)] *)
Fixpoint endswith (s suffix : string) : bool :=
  String.eqb s suffix
  || match s with
     | EmptyString => false
     | String _ s' => endswith s' suffix
     end.

(** [sub in s] *)
Fixpoint contains (sub s : string) : bool :=
  String.prefix sub s
  || match s with
     | EmptyString => false
     | String _ s' => contains sub s'
     end.

Definition lower_ascii (c : ascii) : ascii :=
  let n := nat_of_ascii c in
  if ((65 <=? n) && (n <=? 90))%nat then ascii_of_nat (n + 32) else c.

(** [s.lower()], on the ASCII letters *)
Fixpoint lower (s : string) : string :=
  match s with
  | EmptyString => EmptyString
  | String c s' => String (lower_ascii c) (lower s')
  end.

(** [str(n)] and [f"{n}"] for an [int] *)
Definition of_int (n : Z) : string := NilZero.string_of_int (Z.to_int n).

(** [s[:n]] *)
Definition take (n : nat) (s : string) : string := String.substring 0 n s.

(** [s.rfind(c)] for a character [c]: the last index of [c] in [s] *)
Fixpoint rfind (c : ascii) (s : string) : option nat :=
  match s with
  | EmptyString => None
  | String a s' =>
      match rfind c s' with
      | Some i => Some (S i)
      | None => if Ascii.eqb a c then Some 0%nat else None
      end
  end.

(** [s[i:]] *)
Definition from (i : nat) (s : string) : string :=
  String.substring i (String.length s - i) s.

Definition is_space (c : ascii) : bool :=
  let n := nat_of_ascii c in
  ((9 <=? n) && (n <=? 13) || (28 <=? n) && (n <=? 32))%nat.

(** [s.split()], on the ASCII white space: [word] is the word being read. *)
Fixpoint split_from (word : option string) (s : string) : list string :=
  match s with
  | EmptyString => match word with Some w => [w] | None => [] end
  | String c s' =>
      if is_space c then
        match word with
        | Some w => w :: split_from None s'
        | None => split_from None s'
        end
      else
        split_from
          (Some (match word with Some w => w | None => EmptyString end
                 ++ String c EmptyString))
          s'
  end.

Definition split (s : string) : list string := split_from None s.

(** [s.replace(old, new)]: the occurrences of [old] are taken from the
    left and do not overlap; [skip] characters of an occurrence are still
    to be passed over. *)
Fixpoint replace_from (old new : string) (skip : nat) (s : string) : string :=
  match s with
  | EmptyString => EmptyString
  | String c s' =>
      match skip with
      | S k => replace_from old new k s'
      | O =>
          if String.prefix old s
          then new ++ replace_from old new (String.length old - 1) s'
          else String c (replace_from old new 0 s')
      end
  end.

Fixpoint interleave (new s : string) : string :=
  match s with
  | EmptyString => new
  | String c s' => new ++ String c (interleave new s')
  end.

Definition replace (old new s : string) : string :=
  match old with
  | EmptyString => interleave new s
  | _ => replace_from old new 0 s
  end.

End PyStr.

(** ** Exceptions and results *)

Inductive exn_class :=
| ValueError
| TypeError
| AttributeError
| KeyError
| IsADirectoryError
| OverflowError
| JSONDecodeError      (* requests.exceptions.JSONDecodeError *)
| RequestException     (* requests.exceptions.RequestException and the
                          connection and timeout errors below it *)
| Exception.           (* a bare [Exception(...)] *)

Record exn := MkExn { exn_cls : exn_class; exn_msg : string }.

(** [str(e)] *)
Definition str_exn (e : exn) : string := exn_msg e.

(** [isinstance(e, requests.exceptions.RequestException)] *)
Definition is_request_exception (e : exn) : bool :=
  match exn_cls e with
  | RequestException | JSONDecodeError => true
  | _ => false
  end.

(** [isinstance(e, ValueError)] *)
Definition is_value_error (e : exn) : bool :=
  match exn_cls e with
  | ValueError | JSONDecodeError => true
  | _ => false
  end.

Inductive result (A : Type) :=
| Ok (a : A)
| Raise (e : exn).
Arguments Ok {A} a.
Arguments Raise {A} e.

(** ** JSON values with their Python reading *)

Inductive json :=
| JNull
| JBool (b : bool)
| JNum (q : Q)
| JStr (s : string)
| JArr (items : list json)
| JObj (fields : list (string * json)).

(** The operators below raise what the interpreter raises; the message of
    such an error names the offending type and is indicative only. *)
Module Py.

(** [dict] lookup in a list of fields whose keys are distinct *)
Fixpoint assoc (k : string) (fields : list (string * json)) : option json :=
  match fields with
  | [] => None
  | (k', v) :: rest => if String.eqb k k' then Some v else assoc k rest
  end.

(** the truth value of [v], as [if v:] and [not v] take it *)
Definition truthy (v : json) : bool :=
  match v with
  | JNull => false
  | JBool b => b
  | JNum q => negb (Qeq_bool q 0)
  | JStr s => negb (String.eqb s "")
  | JArr items => match items with [] => false | _ => true end
  | JObj fields => match fields with [] => false | _ => true end
  end.

Definition type_name (v : json) : string :=
  match v with
  | JNull => "NoneType"
  | JBool _ => "bool"
  | JNum _ => "number"
  | JStr _ => "str"
  | JArr _ => "list"
  | JObj _ => "dict"
  end.

Definition is_str (v : json) (k : string) : bool :=
  match v with
  | JStr s => String.eqb s k
  | _ => false
  end.

(** [k in v] for a string [k]: key of a dict, element of a list,
    substring of a string; a [TypeError] on anything else *)
Definition contains (k : string) (v : json) : result bool :=
  match v with
  | JObj fields => Ok (bool_decide (is_Some (assoc k fields)))
  | JArr items => Ok (existsb (fun x => is_str x k) items)
  | JStr s => Ok (PyStr.contains k s)
  | _ => Raise (MkExn TypeError
                  ("argument of type '" ++ type_name v ++ "' is not iterable"))
  end.

(** [v[k]] for a string [k] *)
Definition getitem (v : json) (k : string) : result json :=
  match v with
  | JObj fields =>
      match assoc k fields with
      | Some x => Ok x
      | None => Raise (MkExn KeyError ("'" ++ k ++ "'"))
      end
  | _ => Raise (MkExn TypeError
                  ("'" ++ type_name v ++ "' is not indexed by a str"))
  end.

(** [v.get(k, default)] *)
Definition get (v : json) (k : string) (dflt : json) : result json :=
  match v with
  | JObj fields => Ok (default dflt (assoc k fields))
  | _ => Raise (MkExn AttributeError
                  ("'" ++ type_name v ++ "' object has no attribute 'get'"))
  end.

(** the items [for item in v] runs through *)
Definition iter (v : json) : result (list json) :=
  match v with
  | JArr items => Ok items
  | JObj fields => Ok (map (fun kv => JStr kv.1) fields)
  | JStr s => Ok (map (fun c => JStr (String c EmptyString))
                      (list_ascii_of_string s))
  | _ => Raise (MkExn TypeError
                  ("'" ++ type_name v ++ "' object is not iterable"))
  end.

(** [len(v)] *)
Definition len (v : json) : result Z :=
  match v with
  | JArr items => Ok (Z.of_nat (List.length items))
  | JObj fields => Ok (Z.of_nat (List.length fields))
  | JStr s => Ok (Z.of_nat (String.length s))
  | _ => Raise (MkExn TypeError
                  ("object of type '" ++ type_name v ++ "' has no len()"))
  end.

(** [v or {}] *)
Definition or_empty_dict (v : json) : json :=
  if truthy v then v else JObj [].

End Py.

(** ** The audio artifact store: [services/audio_handler.py] *)

Module AudioStore.

(** The two subdirectories of the storage directory. *)
Inductive partition := Temp | Permanent.

#[global] Instance partition_eq_dec : EqDecision partition.
Proof. solve_decision. Defined.

#[global] Instance partition_countable : Countable partition.
Proof.
  refine (inj_countable'
            (fun p => match p with Temp => false | Permanent => true end)
            (fun b : bool => if b then Permanent else Temp) _).
  by intros [].
Defined.

(** What a name in a directory denotes: a regular file, with its content
    and its time of last modification, or something that is not a regular
    file (a subdirectory). *)
Inductive entry :=
| File (content : list byte) (mtime : Z)
| Dir.

(** The storage directory: [(d, name)] is the path [d / name]. *)
Abbreviation disk := (gmap (partition * string) entry).

Record AudioHandler := { storage_dir : string }.

Definition partition_name (d : partition) : string :=
  match d with Temp => "temp" | Permanent => "permanent" end.

(** [str(self.temp_dir / name)], [str(self.permanent_dir / name)] *)
Definition path_str (h : AudioHandler) (d : partition) (name : string) : string :=
  storage_dir h ++ "/" ++ partition_name d ++ "/" ++ name.

Record Metadata := {
  filename : string;
  path : string;
  relative_path : string;
  url : string;
  format : string;
  size_bytes : Z;
  size_kb : Q;
  created_at : Z;
  permanent : bool
}.

(** [round(n / 1024, 2)]: the quotient is exact in floating point, and
    [round] takes it to the nearest hundredth, a tie to the even one. *)
Definition round_kb (n : Z) : Q :=
  let scaled := 100 * n in            (* hundredths of a KB, times 1024 *)
  let q := scaled / 1024 in
  let r := scaled mod 1024 in
  let hundredths :=
    if (r <? 512)%Z then q
    else if (512 <? r)%Z then q + 1
    else if Z.even q then q else q + 1 in
  Qmake hundredths 100.

(** Lines 49-54: the name the data is stored under. [not filename] holds
    of [None] and of the empty string. *)
Definition stored_name (unique_id : string) (filename : option string)
    (format : string) : string :=
  match filename with
  | Some name =>
      if String.eqb name "" then "audio_" ++ unique_id ++ "." ++ format
      else if negb (PyStr.endswith name ("." ++ format))
           then name ++ "." ++ format
           else name
  | None => "audio_" ++ unique_id ++ "." ++ format
  end.

Definition target_dir (permanent : bool) : partition :=
  if permanent then Permanent else Temp.

(** [save_audio]. [now] is the reading of the clock during the call and
    [unique_id] the string of the UUID drawn by [uuid.uuid4()]. *)
Definition save_audio (h : AudioHandler) (fs : disk) (now : Z)
    (unique_id : string) (audio_data : list byte) (filename : option string)
    (permanent : bool) (format : string) : result (disk * Metadata) :=
  match audio_data with
  | [] => Raise (MkExn ValueError "No audio data provided")
  | _ =>
      let filename := stored_name unique_id filename format in
      let target := target_dir permanent in
      match fs !! (target, filename) with
      | Some Dir =>
          Raise (MkExn IsADirectoryError (path_str h target filename))
      | _ =>
          let fs' := <[(target, filename) := File audio_data now]> fs in
          let file_size := Z.of_nat (List.length audio_data) in
          Ok (fs',
              {| filename := filename;
                 path := path_str h target filename;
                 relative_path :=
                   "audio_outputs/"
                   ++ (if permanent then "permanent" else "temp")
                   ++ "/" ++ filename;
                 url := "/api/audio/" ++ filename;
                 format := format;
                 size_bytes := file_size;
                 size_kb := round_kb file_size;
                 created_at := now;
                 permanent := permanent |})
      end
  end.

(** [get_audio]: the temp directory is looked up first. *)
Fixpoint get_audio_in (h : AudioHandler) (fs : disk)
    (directories : list partition) (filename : string)
    : result (option (list byte)) :=
  match directories with
  | [] => Ok None
  | directory :: rest =>
      match fs !! (directory, filename) with
      | Some (File content _) => Ok (Some content)
      | Some Dir =>
          Raise (MkExn IsADirectoryError (path_str h directory filename))
      | None => get_audio_in h fs rest filename
      end
  end.

Definition get_audio (h : AudioHandler) (fs : disk) (filename : string)
    : result (option (list byte)) :=
  get_audio_in h fs [Temp; Permanent] filename.

(** [timedelta(hours=n)] *)
Definition hours (n : Z) : Z := n * 3600 * 1000000.

(** The names in directory [d], in the order the directory yields them. *)
Definition listdir (fs : disk) (d : partition) : list string :=
  omap (fun kv : partition * string * entry =>
          if decide (kv.1.1 = d) then Some kv.1.2 else None)
       (map_to_list fs).

(** [d.glob("*" + suffix)] *)
Definition glob (fs : disk) (d : partition) (suffix : string) : list string :=
  List.filter (fun name => PyStr.endswith name suffix) (listdir fs d).

(** The body of either loop of [cleanup_temp_files], on one path. *)
Definition sweep (cutoff_time : Z) (st : disk * Z) (name : string) : disk * Z :=
  let '(fs, deleted_count) := st in
  match fs !! (Temp, name) with
  | Some (File _ modified_time) =>            (* [file_path.is_file()] *)
      if (modified_time <? cutoff_time)%Z
      then (delete (Temp, name) fs, deleted_count + 1)
      else st
  | _ => st
  end.

(** The two loops of [cleanup_temp_files], lines 158-170; returns the disk
    they leave and the count. *)
Definition sweep_temp_files (fs : disk) (cutoff_time : Z) : disk * Z :=
  let st := fold_left (sweep cutoff_time) (glob fs Temp ".wav") (fs, 0) in
  fold_left (sweep cutoff_time) (glob st.1 Temp ".mp3") st.

(** The range of [datetime], from 0001-01-01T00:00:00 to
    9999-12-31T23:59:59.999999: day 1 and day 3652059 of the calendar, of
    which 1970-01-01 is day 719163. *)
Definition datetime_min : Z := (1 - 719163) * 86400 * 1000000.
Definition datetime_max : Z := (3652059 - 719163 + 1) * 86400 * 1000000 - 1.

(** [timedelta(hours=n)] as the constructor makes it: the days, [n]
    hours rounded down to whole days, are at most 999999999 in
    magnitude. Days that do not fit the 32 bits the constructor reads them
    into are refused with a message of their own. *)
Definition timedelta_hours (n : Z) : result Z :=
  let days := (n / 24)%Z in
  if (Z.abs days <=? 999999999)%Z then Ok (hours n)
  else if ((- 2 ^ 31 <=? days) && (days <? 2 ^ 31))%Z
  then Raise (MkExn OverflowError
                ("days=" ++ PyStr.of_int days
                 ++ "; must have magnitude <= 999999999"))
  else Raise (MkExn OverflowError "Python int too large to convert to C int").

(** [a - delta] for a [datetime] [a] and a [timedelta] [delta] *)
Definition datetime_sub (a delta : Z) : result Z :=
  if ((datetime_min <=? a - delta) && (a - delta <=? datetime_max))%Z
  then Ok (a - delta)
  else Raise (MkExn OverflowError "date value out of range").

(** [cleanup_temp_files]; returns the disk it leaves, and the count or the
    error of line 156, raised before a file is looked at. *)
Definition cleanup_temp_files (fs : disk) (now : Z) (max_age_hours : Z)
    : disk * result Z :=
  match timedelta_hours max_age_hours with
  | Raise e => (fs, Raise e)
  | Ok delta =>
      match datetime_sub now delta with
      | Raise e => (fs, Raise e)
      | Ok cutoff_time =>
          let st := sweep_temp_files fs cutoff_time in
          (st.1, Ok st.2)
      end
  end.

(** [delete_audio]: the first of the directories that has the name loses
    it. [unlink] does not remove a directory. *)
Fixpoint delete_audio_in (h : AudioHandler) (fs : disk)
    (directories : list partition) (filename : string)
    : result (disk * bool) :=
  match directories with
  | [] => Ok (fs, false)
  | directory :: rest =>
      match fs !! (directory, filename) with
      | Some (File _ _) => Ok (delete (directory, filename) fs, true)
      | Some Dir =>
          Raise (MkExn IsADirectoryError (path_str h directory filename))
      | None => delete_audio_in h fs rest filename
      end
  end.

Definition delete_audio (h : AudioHandler) (fs : disk) (filename : string)
    : result (disk * bool) :=
  delete_audio_in h fs [Temp; Permanent] filename.

(** [file_path.suffix] of [pathlib], as up to Python 3.12: from the last
    dot on, when that dot is neither the first nor the last character. *)
Definition suffix (name : string) : string :=
  match PyStr.rfind "."%char name with
  | Some i =>
      if ((0 <? i) && (i <? String.length name - 1))%nat
      then PyStr.from i name else ""
  | None => ""
  end.

(** [file_path.suffix.lower() in ['.wav', '.mp3', '.ogg']] *)
Definition has_audio_suffix (name : string) : bool :=
  let ext := PyStr.lower (suffix name) in
  String.eqb ext ".wav" || String.eqb ext ".mp3" || String.eqb ext ".ogg".

(** What [stat] reports beside what [entry] holds: the time of the last
    change of status of a path, already printed by [isoformat], and the
    size of a path that is a directory. *)
Record Stat := {
  ctime_iso : partition -> string -> string;
  dir_size : partition -> string -> Z
}.

(** An item of [list_audio_files]. *)
Record Listed := {
  listed_filename : string;
  listed_path : string;
  listed_size_kb : Q;
  listed_created_at : string;
  listed_permanent : bool
}.

Definition st_size (stat : Stat) (fs : disk) (d : partition) (name : string) : Z :=
  match fs !! (d, name) with
  | Some (File content _) => Z.of_nat (List.length content)
  | _ => dir_size stat d name
  end.

(** The items one directory adds to [files]. *)
Definition listed_in (h : AudioHandler) (stat : Stat) (fs : disk)
    (directory : partition) : list Listed :=
  map (fun name =>
         {| listed_filename := name;
            listed_path := path_str h directory name;
            listed_size_kb := round_kb (st_size stat fs directory name);
            listed_created_at := ctime_iso stat directory name;
            listed_permanent := bool_decide (directory = Permanent) |})
      (List.filter has_audio_suffix
         (List.filter (PyStr.contains ".") (listdir fs directory))).

(** [sorted(files, key=lambda x: x['created_at'], reverse=True)]: the sort
    is stable; an item goes before the first one that is not newer. *)
Fixpoint insert_newest_first (x : Listed) (sorted : list Listed) : list Listed :=
  match sorted with
  | [] => [x]
  | y :: rest =>
      if String.ltb (listed_created_at x) (listed_created_at y)
      then y :: insert_newest_first x rest
      else x :: y :: rest
  end.

Definition sorted_newest_first (files : list Listed) : list Listed :=
  fold_right insert_newest_first [] files.

Definition list_audio_files (h : AudioHandler) (stat : Stat) (fs : disk)
    (permanent_only : bool) : list Listed :=
  let directories := if permanent_only then [Permanent] else [Temp; Permanent] in
  sorted_newest_first (concat (map (listed_in h stat fs) directories)).

End AudioStore.

(** ** The world outside the process, and code that acts on it *)

(** A call of [requests.post]. *)
Record request := {
  req_url : string;
  req_json : json;
  req_headers : list (string * string);
  req_timeout : Z
}.

(** What comes of a call of [requests.post]: no reply (connection refused,
    name not resolved, timeout: [requests] raises a [RequestException]), or a
    response with its status code and its body, [None] when the body is not a
    JSON document. *)
Record response := { status_code : Z; body : option json }.

Inductive reply :=
| Unreachable (reason : string)
| Replied (r : response).

(** What a call reads from outside: the remote endpoint, the clock, the UUID
    generator, and the base-64 decoder of the standard library. One reading
    of the clock serves a call. *)
Record env := {
  endpoint : request -> reply;
  time_time : Z;                    (* [int(time.time())] *)
  now_second : string;              (* [strftime("%Y%m%d_%H%M%S")] *)
  now_day : string;                 (* [strftime("%Y%m%d")] *)
  now_iso : string;                 (* [datetime.now().isoformat()] *)
  uuid4 : string;                   (* [str(uuid.uuid4())] *)
  b64decode : string -> result (list byte)
}.

(** What a call leaves behind: the requests sent, oldest first, and the
    documents under the text storage directory, by path. *)
Record world := {
  sent : list request;
  text_files : gmap string json
}.

(** A computation that may raise and that changes the world; what it did
    before raising stays done. *)
Definition M (A : Type) : Type := world -> result A * world.

Definition ret {A} (a : A) : M A := fun w => (Ok a, w).

Definition raise {A} (e : exn) : M A := fun w => (Raise e, w).

Definition bind {A B} (m : M A) (k : A -> M B) : M B :=
  fun w =>
    match m w with
    | (Ok a, w') => k a w'
    | (Raise e, w') => (Raise e, w')
    end.

(** [try: body / except ... as e: handler e] *)
Definition try_except {A} (body : M A) (handler : exn -> M A) : M A :=
  fun w =>
    match body w with
    | (Ok a, w') => (Ok a, w')
    | (Raise e, w') => handler e w'
    end.

Definition lift {A} (r : result A) : M A := fun w => (r, w).

Declare Scope py_scope.
Delimit Scope py_scope with py.
Notation "x <- m ;; k" := (bind m (fun x => k))
  (at level 100, m at next level, right associativity) : py_scope.
Notation "m ;;; k" := (bind m (fun _ => k))
  (at level 100, right associativity) : py_scope.

(** [requests.post(url, json=..., headers=..., timeout=...)] *)
Definition requests_post (E : env) (r : request) : M response :=
  fun w =>
    let w' := {| sent := sent w ++ [r]; text_files := text_files w |} in
    match endpoint E r with
    | Unreachable reason => (Raise (MkExn RequestException reason), w')
    | Replied resp => (Ok resp, w')
    end.

(** [response.json()] *)
Definition response_json (resp : response) : result json :=
  match body resp with
  | Some v => Ok v
  | None => Raise (MkExn JSONDecodeError "Expecting value")
  end.

(** ** The generation gateway: [services/ai_model_service.py] *)

Module Gateway.

Local Open Scope py_scope.

Record FineTunedModelService := {
  model_endpoint : string;
  api_key : string
}.

(** What [generate_story] returns for the audio: decoded bytes, or the
    value of the response passed through. *)
Inductive audio :=
| AudioBytes (b : list byte)
| AudioRaw (v : json).

(** The dictionary both exits of [generate_schedule] build. *)
Record schedule_result := {
  schedule : json;
  metadata : json;
  confidence : json
}.

Definition headers (self : FineTunedModelService) : list (string * string) :=
  [("Content-Type", "application/json");
   ("Authorization", "Bearer " ++ api_key self)].

Definition story_request (self : FineTunedModelService) (context : json)
    : request :=
  {| req_url := model_endpoint self ++ "/generate";
     req_json :=
       JObj [("task", JStr "story_generation");
             ("context", context);
             ("parameters",
              JObj [("max_length", JNum 150);
                    ("temperature", JNum (8 # 10));
                    ("output_format", JStr "both")])];
     req_headers := headers self;
     req_timeout := 30 |}.

Definition schedule_request (self : FineTunedModelService)
    (tasks : list json) (user_profile : json) : request :=
  {| req_url := model_endpoint self ++ "/generate";
     req_json :=
       JObj [("task", JStr "schedule_generation");
             ("tasks", JArr tasks);
             ("user_profile", Py.or_empty_dict user_profile);
             ("parameters",
              JObj [("current_time", JStr "9:00 AM");
                    ("scheduling_rules",
                     JObj [("recurring_tasks", JArr [JStr "Check Posture"]);
                           ("preferred_times",
                            JObj [("walk", JStr "afternoon");
                                  ("stretches", JStr "after_sitting")])])])];
     req_headers := headers self;
     req_timeout := 30 |}.

Definition stories : list string :=
  [ "Today is a new chapter. Focus not on the mountain top, but on the single, steady step. "
    ++ "Every small movement forward is progress. Your body is healing, and patience is your greatest strength.";
    "Like a river carving through stone, your consistent effort shapes your recovery. "
    ++ "Celebrate the small victories - they are the building blocks of transformation.";
    "Recovery is not a race, it's a journey of rediscovery. Each stretch, each breath, "
    ++ "each mindful moment brings you closer to the version of yourself you're becoming." ].

Definition _generate_fallback_story (E : env) (context : json)
    : json * option audio :=
  let index := time_time E mod Z.of_nat (List.length stories) in
  (JStr (nth (Z.to_nat index) stories ""), None).

Definition generate_story (self : FineTunedModelService) (E : env)
    (context : json) : M (json * option audio) :=
  try_except
    (resp <- requests_post E (story_request self context) ;;
     if (status_code resp =? 200)%Z then
       result <- lift (response_json resp) ;;
       text_output <- lift (Py.get result "text" (JStr "")) ;;
       audio_data <- lift (Py.get result "audio" JNull) ;;
       audio_bytes <-
         (if Py.truthy audio_data then
            match audio_data with
            | JStr encoded =>
                decoded <- lift (b64decode E encoded) ;;
                ret (Some (AudioBytes decoded))
            | _ => ret (Some (AudioRaw audio_data))
            end
          else ret None) ;;
       ret (text_output, audio_bytes)
     else
       raise (MkExn Exception
                ("Model API returned status "
                 ++ PyStr.of_int (status_code resp))))
    (fun e =>
       if is_request_exception e
       then ret (_generate_fallback_story E context)
       else raise (MkExn Exception
                     ("Failed to generate story: " ++ str_exn e))).

(** Lines 135-137: every item must pass [in] for both keys. *)
Fixpoint validate (items : list json) : result unit :=
  match items with
  | [] => Ok tt
  | item :: rest =>
      match Py.contains "time" item with
      | Raise e => Raise e
      | Ok false =>
          Raise (MkExn ValueError "Invalid schedule format from model")
      | Ok true =>
          match Py.contains "task" item with
          | Raise e => Raise e
          | Ok false =>
              Raise (MkExn ValueError "Invalid schedule format from model")
          | Ok true => validate rest
          end
      end
  end.

(** The time of day the fallback scheduler prints for hour [h]. *)
Definition hour_label (h : Z) : string :=
  if (h <? 12)%Z then PyStr.of_int h ++ ":00 AM"
  else PyStr.of_int (h - 12) ++ ":00 PM".

Definition slot (time : string) (task : json) : json :=
  JObj [("time", JStr time); ("task", task)].

(** [task.lower()] *)
Definition task_lower (task : json) : result string :=
  match task with
  | JStr name => Ok (PyStr.lower name)
  | _ => Raise (MkExn AttributeError
                  ("'" ++ Py.type_name task
                   ++ "' object has no attribute 'lower'"))
  end.

(** The loop of [_generate_fallback_schedule] over the tasks that remain,
    with the schedule built so far and the hour cursor. *)
Fixpoint fallback_loop (tasks : list json) (schedule : list json)
    (current_hour : Z) : result (list json) :=
  match tasks with
  | [] => Ok schedule
  | task :: rest =>
      match task_lower task with
      | Raise e => Raise e
      | Ok lowered =>
          if PyStr.contains "posture" lowered then
            fallback_loop rest
              (schedule
               ++ map (fun i => slot (hour_label (current_hour + i * 2)) task)
                      [0; 1; 2])
              current_hour
          else if PyStr.contains "walk" lowered then
            fallback_loop rest (schedule ++ [slot "5:00 PM" task]) current_hour
          else
            fallback_loop rest
              (schedule ++ [slot (hour_label current_hour) task])
              (current_hour + 2)
      end
  end.

Definition _generate_fallback_schedule (tasks : list json)
    : result schedule_result :=
  match fallback_loop tasks [] 11 with
  | Raise e => Raise e
  | Ok schedule =>
      Ok {| schedule := JArr schedule;
            metadata := JObj [("source", JStr "fallback")];
            confidence := JNum (1 # 2) |}
  end.

Definition generate_schedule (self : FineTunedModelService) (E : env)
    (tasks : list json) (user_profile : json) : M schedule_result :=
  try_except
    (resp <- requests_post E (schedule_request self tasks user_profile) ;;
     if (status_code resp =? 200)%Z then
       result <- lift (response_json resp) ;;
       schedule <- lift (Py.get result "schedule" (JArr [])) ;;
       items <- lift (Py.iter schedule) ;;
       _ <- lift (validate items) ;;
       metadata <- lift (Py.get result "metadata" (JObj [])) ;;
       confidence <- lift (Py.get result "confidence" (JNum 0)) ;;
       ret {| schedule := schedule;
              metadata := metadata;
              confidence := confidence |}
     else
       raise (MkExn Exception
                ("Model API returned status "
                 ++ PyStr.of_int (status_code resp))))
    (fun e =>
       if is_request_exception e
       then lift (_generate_fallback_schedule tasks)
       else raise (MkExn Exception
                     ("Failed to generate schedule: " ++ str_exn e))).

End Gateway.

(** ** The schedule route: [routes/ai.py], with the parts of
       [services/text_handler.py] it calls *)

Module Routes.

Local Open Scope py_scope.

Record TextHandler := { storage_dir : string }.

(** What [save_schedule] returns. *)
Record schedule_info := {
  id : string;
  filename : string;
  path : string;
  schedule : json;
  task_count : Z;
  created_at : string
}.

(** [open(path, 'w')] followed by [json.dump(data, f, ...)] *)
Definition write_json (path : string) (data : json) : M unit :=
  fun w =>
    (Ok tt, {| sent := sent w; text_files := <[path := data]> (text_files w) |}).

(** [TextHandler.save_schedule] *)
Definition save_schedule (self : TextHandler) (E : env)
    (schedule metadata : json) : M schedule_info :=
  if negb (Py.truthy schedule) then
    raise (MkExn ValueError "No schedule data provided")
  else
    let timestamp := now_second E in
    let unique_id := PyStr.take 8 (uuid4 E) in
    let filename := "schedule_" ++ timestamp ++ "_" ++ unique_id ++ ".json" in
    let file_path := storage_dir self ++ "/schedules/" ++ filename in
    task_count <- lift (Py.len schedule) ;;
    let data :=
      JObj [("id", JStr unique_id);
            ("schedule", schedule);
            ("task_count", JNum (inject_Z task_count));
            ("created_at", JStr (now_iso E));
            ("metadata", Py.or_empty_dict metadata);
            ("type", JStr "schedule")] in
    write_json file_path data ;;;
    ret {| id := unique_id;
           filename := filename;
           path := file_path;
           schedule := schedule;
           task_count := task_count;
           created_at := now_iso E |}.

(** [TextHandler.log_generation] *)
Definition log_generation (self : TextHandler) (E : env)
    (generation_type : string) (success : bool) (metadata : json) : M unit :=
  let timestamp := now_day E in
  let log_file :=
    storage_dir self ++ "/logs/generation_log_" ++ timestamp ++ ".json" in
  let log_entry :=
    JObj [("timestamp", JStr (now_iso E));
          ("type", JStr generation_type);
          ("success", JBool success);
          ("metadata", Py.or_empty_dict metadata)] in
  fun w =>
    let logs := default (JArr []) (text_files w !! log_file) in
    match logs with
    | JArr entries => write_json log_file (JArr (entries ++ [log_entry])) w
    | _ => (Raise (MkExn AttributeError
                     ("'" ++ Py.type_name logs
                      ++ "' object has no attribute 'append'")), w)
    end.

(** [jsonify({"error": ..., "success": False}), status] *)
Definition failure (message : string) (status : Z) : json * Z :=
  (JObj [("error", JStr message); ("success", JBool false)], status).

(** The handler of [POST /api/ai/generateschedule]; [data] is what
    [request.get_json()] returned, [JNull] for [None]. The result is the
    JSON body of the response and its status. *)
Definition generate_schedule (model_service : Gateway.FineTunedModelService)
    (text_handler : TextHandler) (E : env) (data : json) : M (json * Z) :=
  try_except
    (has_tasks <-
       (if negb (Py.truthy data) then ret false
        else lift (Py.contains "tasks" data)) ;;
     if negb has_tasks then
       ret (failure "Missing 'tasks' field in request body" 400)
     else
       tasks <- lift (Py.getitem data "tasks") ;;
       user_profile <- lift (Py.get data "user_profile" (JObj [])) ;;
       match tasks with
       | JArr ((_ :: _) as items) =>
           result <- Gateway.generate_schedule model_service E items
                       user_profile ;;
           info <- save_schedule text_handler E (Gateway.schedule result)
                     (JObj [("tasks", tasks);
                            ("user_profile", user_profile);
                            ("confidence", Gateway.confidence result)]) ;;
           log_generation text_handler E "schedule" true
             (JObj [("schedule_id", JStr (id info));
                    ("task_count",
                     JNum (inject_Z (Z.of_nat (List.length items))))]) ;;;
           ret (JObj [("schedule", Gateway.schedule result);
                      ("scheduleId", JStr (id info));
                      ("taskCount", JNum (inject_Z (task_count info)));
                      ("confidence", Gateway.confidence result);
                      ("metadata", Gateway.metadata result);
                      ("success", JBool true)],
                200)
       | _ => ret (failure "Tasks must be a non-empty array" 400)
       end)
    (fun e =>
       if is_value_error e then
         log_generation text_handler E "schedule" false
           (JObj [("error", JStr (str_exn e))]) ;;;
         ret (failure ("Failed to parse schedule: " ++ str_exn e) 500)
       else
         log_generation text_handler E "schedule" false
           (JObj [("error", JStr (str_exn e))]) ;;;
         ret (failure (str_exn e) 500)).

End Routes.

(** ** The audio routes: [routes/audio.py] *)

Module AudioRoutes.

(** What a handler returns: [jsonify(body), status], or the stream
    [send_file] makes of the bytes, with status 200. *)
Inductive http_response :=
| JsonResponse (body : json) (status : Z)
| FileResponse (data : list byte) (mimetype : string) (download_name : string).

(** Lines 36-44: the MIME type, by the end of the filename. *)
Definition mimetype_of (filename : string) : string :=
  if PyStr.endswith filename ".wav" then "audio/wav"
  else if PyStr.endswith filename ".mp3" then "audio/mpeg"
  else if PyStr.endswith filename ".ogg" then "audio/ogg"
  else "application/octet-stream".

(** The handler of [GET /api/audio/<filename>] *)
Definition get_audio_file (audio_handler : AudioStore.AudioHandler)
    (fs : AudioStore.disk) (filename : string) : http_response :=
  match AudioStore.get_audio audio_handler fs filename with
  | Ok None =>
      JsonResponse (JObj [("error", JStr "Audio file not found");
                          ("filename", JStr filename)]) 404
  | Ok (Some audio_data) =>
      FileResponse audio_data (mimetype_of filename) filename
  | Raise e =>
      JsonResponse (JObj [("error", JStr (str_exn e));
                          ("filename", JStr filename)]) 500
  end.


End AudioRoutes.

(** ** The story route: [routes/ai.py], with [TextHandler.save_story] *)

Module Stories.

Local Open Scope py_scope.

(** What [save_story] returns. *)
Record story_info := {
  id : string;
  filename : string;
  path : string;
  text : json;
  word_count : Z;
  char_count : Z;
  created_at : string
}.

(** [len(story_text.split())] *)
Definition count_words (story_text : json) : result Z :=
  match story_text with
  | JStr s => Ok (Z.of_nat (List.length (PyStr.split s)))
  | _ => Raise (MkExn AttributeError
                  ("'" ++ Py.type_name story_text
                   ++ "' object has no attribute 'split'"))
  end.

(** [TextHandler.save_story] *)
Definition save_story (self : Routes.TextHandler) (E : env)
    (story_text metadata : json) : M story_info :=
  if negb (Py.truthy story_text) then
    raise (MkExn ValueError "No story text provided")
  else
    let timestamp := now_second E in
    let unique_id := PyStr.take 8 (uuid4 E) in
    let filename := "story_" ++ timestamp ++ "_" ++ unique_id ++ ".json" in
    let file_path := Routes.storage_dir self ++ "/stories/" ++ filename in
    word_count <- lift (count_words story_text) ;;
    char_count <- lift (Py.len story_text) ;;
    let data :=
      JObj [("id", JStr unique_id);
            ("text", story_text);
            ("word_count", JNum (inject_Z word_count));
            ("char_count", JNum (inject_Z char_count));
            ("created_at", JStr (now_iso E));
            ("metadata", Py.or_empty_dict metadata);
            ("type", JStr "story")] in
    Routes.write_json file_path data ;;;
    ret {| id := unique_id;
           filename := filename;
           path := file_path;
           text := story_text;
           word_count := word_count;
           char_count := char_count;
           created_at := now_iso E |}.

(** [request.args.get(name, default).lower() == 'true'] *)
Definition query_flag (arg : option string) (dflt : string) : bool :=
  String.eqb (PyStr.lower (default dflt arg)) "true".

(** The context the route sends with every request. *)
Definition context : json :=
  JObj [("user_type", JStr "rehabilitation_patient");
        ("content_type", JStr "inspirational_story");
        ("max_words", JNum 100);
        ("themes", JArr [JStr "patience"; JStr "resilience";
                         JStr "small_victories"])].

(** The truth value of the audio [generate_story] returned. *)
Definition audio_truthy (audio_data : option Gateway.audio) : bool :=
  match audio_data with
  | Some (Gateway.AudioBytes b) => match b with [] => false | _ => true end
  | Some (Gateway.AudioRaw v) => Py.truthy v
  | None => false
  end.

(** [AudioHandler.save_audio] on what [generate_story] returned. A value
    that is not bytes gets as far as the open file, which it leaves empty:
    [f.write] raises a [TypeError]. Returns the disk left behind. *)
Definition save_audio_value (h : AudioStore.AudioHandler)
    (fs : AudioStore.disk) (now : Z) (unique_id : string)
    (audio_data : Gateway.audio) (filename : option string)
    (permanent : bool) (format : string)
    : result AudioStore.Metadata * AudioStore.disk :=
  match audio_data with
  | Gateway.AudioBytes b =>
      match AudioStore.save_audio h fs now unique_id b filename permanent
              format with
      | Ok (fs', audio_info) => (Ok audio_info, fs')
      | Raise e => (Raise e, fs)
      end
  | Gateway.AudioRaw v =>
      if negb (Py.truthy v) then
        (Raise (MkExn ValueError "No audio data provided"), fs)
      else
        let filename := AudioStore.stored_name unique_id filename format in
        let target := AudioStore.target_dir permanent in
        match fs !! (target, filename) with
        | Some AudioStore.Dir =>
            (Raise (MkExn IsADirectoryError
                      (AudioStore.path_str h target filename)), fs)
        | _ =>
            (Raise (MkExn TypeError
                      ("a bytes-like object is required, not '"
                       ++ Py.type_name v ++ "'")),
             <[(target, filename) := AudioStore.File [] now]> fs)
        end
  end.

(** The body of the answer when the route fails. *)
Definition story_failure (e : exn) : json * Z :=
  (JObj [("error", JStr (str_exn e));
         ("success", JBool false);
         ("storyText",
          JStr "Unable to generate story at this time. Remember: every small step counts.")],
   500).

(** The handler of [GET /api/ai/vibestory]; the two arguments are the
    query parameters [include_audio] and [save_audio], [None] when absent.
    The result is the answer, the audio disk and the world left behind. *)
Definition generate_vibe_story (model_service : Gateway.FineTunedModelService)
    (text_handler : Routes.TextHandler)
    (audio_handler : AudioStore.AudioHandler) (E : env) (now : Z)
    (include_audio_arg save_audio_arg : option string)
    (fs : AudioStore.disk) (w : world)
    : result (json * Z) * AudioStore.disk * world :=
  let include_audio := query_flag include_audio_arg "true" in
  let save_audio_permanent := query_flag save_audio_arg "false" in
  let on_error (e : exn) (fs' : AudioStore.disk) (w' : world) :=
    match Routes.log_generation text_handler E "story" false
            (JObj [("error", JStr (str_exn e))]) w' with
    | (Ok _, w'') => (Ok (story_failure e), fs', w'')
    | (Raise e', w'') => (Raise e', fs', w'')
    end in
  match (story <- Gateway.generate_story model_service E context ;;
         text_info <- save_story text_handler E story.1 context ;;
         Routes.log_generation text_handler E "story" true
           (JObj [("story_id", JStr (id text_info))]) ;;;
         ret (story, text_info)) w with
  | (Raise e, w') => on_error e fs w'
  | (Ok (story, text_info), w') =>
      let response :=
        [("storyText", story.1);
         ("storyId", JStr (id text_info));
         ("wordCount", JNum (inject_Z (word_count text_info)));
         ("success", JBool true)] in
      match story.2 with
      | Some audio_data =>
          if include_audio && audio_truthy (Some audio_data) then
            match save_audio_value audio_handler fs now (uuid4 E) audio_data
                    (Some ("story_" ++ id text_info)) save_audio_permanent
                    "wav" with
            | (Ok audio_info, fs') =>
                (Ok (JObj (response
                           ++ [("audioUrl", JStr (AudioStore.url audio_info));
                               ("audioFilename",
                                JStr (AudioStore.filename audio_info));
                               ("audioSize",
                                JNum (AudioStore.size_kb audio_info))]),
                     200), fs', w')
            | (Raise e, fs') => on_error e fs' w'
            end
          else (Ok (JObj response, 200), fs, w')
      | None => (Ok (JObj response, 200), fs, w')
      end
  end.

End Stories.

(** ** Speech formatting: [TextHandler.format_for_speech] *)

Module Speech.

Definition format_for_speech (text : string) : string :=
  let formatted := PyStr.replace ". " "... " text in
  let formatted := PyStr.replace "! " "!.. " formatted in
  let formatted := PyStr.replace "? " "?.. " formatted in
  let formatted := PyStr.replace "*" "" formatted in
  let formatted := PyStr.replace "_" "" formatted in
  formatted.

End Speech.

(** ** The models: [models/user.py] *)

Module UserModel.

(** The attributes hold whatever the constructor is given. *)
Record User := {
  user_id : json;
  name : json;
  overall_progress : json
}.

Definition to_dict (self : User) : json :=
  JObj [("userId", user_id self);
        ("name", name self);
        ("overallProgress", overall_progress self)].

Definition from_dict (data : json) : result User :=
  match Py.get data "userId" JNull with
  | Raise e => Raise e
  | Ok uid =>
      match Py.get data "name" JNull with
      | Raise e => Raise e
      | Ok n =>
          match Py.get data "overallProgress" (JNum 0) with
          | Raise e => Raise e
          | Ok progress =>
              Ok {| user_id := uid; name := n; overall_progress := progress |}
          end
      end
  end.

End UserModel.

Module TaskModel.

Record Task := {
  task_id : json;
  label : json;
  icon : json;
  completed : json
}.

Definition to_dict (self : Task) : json :=
  JObj [("id", task_id self);
        ("label", label self);
        ("icon", icon self);
        ("completed", completed self)].

Definition from_dict (data : json) : result Task :=
  match Py.get data "id" JNull with
  | Raise e => Raise e
  | Ok tid =>
      match Py.get data "label" JNull with
      | Raise e => Raise e
      | Ok l =>
          match Py.get data "icon" JNull with
          | Raise e => Raise e
          | Ok i =>
              match Py.get data "completed" (JBool false) with
              | Raise e => Raise e
              | Ok c =>
                  Ok {| task_id := tid; label := l; icon := i; completed := c |}
              end
          end
      end
  end.

End TaskModel.

(** ** The database connection: [utils/database.py] *)

Module Mongo.

(** The driver: [MongoClient(uri)] and [client[name]] give a handle or
    raise. *)
Record driver := {
  mongo_client : string -> result nat;
  select_db : nat -> string -> result nat
}.

(** The attributes of the one instance of [Database]. *)
Record Database := {
  _client : option nat;
  _db : option nat
}.

Record Config := { MONGODB_URI : string; MONGODB_DB : string }.

Definition connect (drv : driver) (cfg : Config) (self : Database)
    : result unit * Database :=
  match _client self with
  | None =>
      match mongo_client drv (MONGODB_URI cfg) with
      | Raise e => (Raise e, self)
      | Ok client =>
          match select_db drv client (MONGODB_DB cfg) with
          | Raise e => (Raise e, {| _client := Some client; _db := _db self |})
          | Ok db => (Ok tt, {| _client := Some client; _db := Some db |})
          end
      end
  | Some _ => (Ok tt, self)
  end.

Definition get_db (drv : driver) (cfg : Config) (self : Database)
    : result (option nat) * Database :=
  match _db self with
  | None =>
      match connect drv cfg self with
      | (Raise e, self') => (Raise e, self')
      | (Ok _, self') => (Ok (_db self'), self')
      end
  | Some db => (Ok (Some db), self)
  end.

Definition close (self : Database) : Database :=
  match _client self with
  | Some _ => {| _client := None; _db := None |}
  | None => self
  end.

End Mongo.

(** ** Definitions used to state the properties *)

(** A file the sweep of [cleanup_temp_files] deletes: a regular file last
    modified before the cutoff. *)
Definition expired (cutoff_time : Z) (o : option AudioStore.entry) : bool :=
  match o with
  | Some (AudioStore.File _ modified_time) => (modified_time <? cutoff_time)%Z
  | _ => false
  end.

(** The cutoff of [cleanup_temp_files] can be computed: the age is a
    [timedelta] and the cutoff a [datetime]. *)
Definition cutoff_in_range (now max_age_hours : Z) : Prop :=
  Z.abs (max_age_hours / 24) <= 999999999
  /\ AudioStore.datetime_min <= now - AudioStore.hours max_age_hours
     <= AudioStore.datetime_max.

(** The names the two patterns of [cleanup_temp_files] match. *)
Definition swept_name (name : string) : bool :=
  PyStr.endswith name ".wav" || PyStr.endswith name ".mp3".

(** Sample inputs. *)
Module Sample.

Import AudioStore.

Definition handler : AudioHandler := {| storage_dir := "audio_outputs" |}.

Definition clip : list byte := [x52; x49; x46; x46].

(** Ten in the morning of some day, in microseconds. *)
Definition ten_am : Z := 36000 * 1000000.

(** A temp file two hours old, one saved this instant, an [ogg] file, a
    subdirectory, and a permanent file as old as the first. *)
Definition shelf : disk :=
  <[(Temp, "old.wav") := File clip (ten_am - hours 2)]>
    (<[(Temp, "fresh.mp3") := File clip ten_am]>
       (<[(Temp, "old.ogg") := File clip 0]>
          (<[(Temp, "dir.wav") := Dir]>
             (<[(Permanent, "old.wav") := File clip (ten_am - hours 2)]> ∅)))).

End Sample.

(** A task the fallback scheduler repeats. *)
Definition is_posture (name : string) : bool :=
  PyStr.contains "posture" (PyStr.lower name).

Definition is_walk (name : string) : bool :=
  PyStr.contains "walk" (PyStr.lower name).

(** A schedule entry whose task is a posture task. *)
Definition entry_is_posture (e : json) : bool :=
  match e with
  | JObj fields =>
      match Py.assoc "task" fields with
      | Some (JStr name) => is_posture name
      | _ => false
      end
  | _ => false
  end.

(** The entries the fallback scheduler makes for task names, from hour
    [current_hour] on. *)
Fixpoint plan (names : list string) (current_hour : Z) : list json :=
  match names with
  | [] => []
  | name :: rest =>
      if is_posture name then
        map (fun i => Gateway.slot (Gateway.hour_label (current_hour + i * 2))
                        (JStr name)) [0; 1; 2]
        ++ plan rest current_hour
      else if is_walk name then
        Gateway.slot "5:00 PM" (JStr name) :: plan rest current_hour
      else
        Gateway.slot (Gateway.hour_label current_hour) (JStr name)
        :: plan rest (current_hour + 2)
  end.

(** The world after one more request. *)
Definition after_request (w : world) (r : request) : world :=
  {| sent := sent w ++ [r]; text_files := text_files w |}.

Module SampleNet.

Definition service : Gateway.FineTunedModelService :=
  {| Gateway.model_endpoint := "http://localhost:8000/api/model";
     Gateway.api_key := "" |}.

Definition text_handler : Routes.TextHandler :=
  {| Routes.storage_dir := "text_outputs" |}.

Definition context : json :=
  JObj [("user_type", JStr "rehabilitation_patient");
        ("content_type", JStr "inspirational_story");
        ("max_words", JNum 100);
        ("themes", JArr [JStr "patience"; JStr "resilience";
                         JStr "small_victories"])].

(** An environment whose endpoint answers every request with [answer]; the
    replies of the samples carry no audio, and the decoder is not
    called. *)
Definition answering (answer : reply) : env :=
  {| endpoint := fun _ => answer;
     time_time := 1700000000;
     now_second := "20231114_221320";
     now_day := "20231114";
     now_iso := "2023-11-14T22:13:20.000000";
     uuid4 := "1b4e28ba-2fa1-11d2-883f-0016d3cca427";
     b64decode := fun _ => Raise (MkExn ValueError "Incorrect padding") |}.

Definition offline : env := answering (Unreachable "Connection refused").

Definition overloaded : env :=
  answering (Replied {| status_code := 503; body := None |}).

(** A reply with status 200 whose schedule has one entry, a sentence
    instead of a record. *)
Definition chatty : env :=
  answering
    (Replied {| status_code := 200;
                body := Some (JObj [("schedule",
                                     JArr [JStr "take time for the task"])]) |}).

Definition quiet : world := {| sent := []; text_files := ∅ |}.

End SampleNet.

(** ** Definitions used to state further properties *)

(** An entry [cleanup_temp_files] deletes: a regular file of the temp
    directory, matched by one of the two patterns, last modified before the
    cutoff. *)
Definition doomed (cutoff_time : Z)
    (kv : AudioStore.partition * string * AudioStore.entry) : bool :=
  match kv.1.1 with
  | AudioStore.Temp => swept_name kv.1.2 && expired cutoff_time (Some kv.2)
  | AudioStore.Permanent => false
  end.

(** An item of a listing is not older than the next one. *)
Definition not_older (x y : AudioStore.Listed) : Prop :=
  String.ltb (AudioStore.listed_created_at x) (AudioStore.listed_created_at y)
  = false.

(** The item of the listing for a name of a directory. *)
Definition item (h : AudioStore.AudioHandler) (stat : AudioStore.Stat)
    (fs : AudioStore.disk) (d : AudioStore.partition) (name : string)
    : AudioStore.Listed :=
  {| AudioStore.listed_filename := name;
     AudioStore.listed_path := AudioStore.path_str h d name;
     AudioStore.listed_size_kb := AudioStore.round_kb (AudioStore.st_size stat fs d name);
     AudioStore.listed_created_at := AudioStore.ctime_iso stat d name;
     AudioStore.listed_permanent := bool_decide (d = AudioStore.Permanent) |}.

Module SampleFiles.

Import AudioStore.

(** A disk with the same name in both directories. *)
Definition twins : disk :=
  <[(Temp, "clip.wav") := File [x01; x02] 5]>
    (<[(Permanent, "clip.wav") := File [x03] 7]>
       (<[(Permanent, "talk.OGG") := File [x04] 9]>
          (<[(Temp, "notes.txt") := File [x05] 9]> ∅))).

Definition stat : Stat :=
  {| ctime_iso := fun d name =>
       match d with
       | Temp => "2023-11-14T22:13:20"
       | Permanent =>
           if String.eqb name "clip.wav" then "2023-11-15T08:00:00"
           else "2023-11-13T08:00:00"
       end;
     dir_size := fun _ _ => 4096 |}.

End SampleFiles.

(** A computation that leaves the world as it finds it. *)
Definition quiet {A} (m : M A) : Prop := forall w, (m w).2 = w.

(** A schedule entry that is a record with both keys. *)
Definition well_formed_entry (item : json) : Prop :=
  exists fields,
    item = JObj fields
    /\ is_Some (Py.assoc "time" fields) /\ is_Some (Py.assoc "task" fields).

Module SampleReplies.

(** A reply with a story and its audio in base 64, and a decoder that knows
    that one text. *)
Definition spoken : env :=
  {| endpoint := fun _ =>
       Replied {| status_code := 200;
                  body := Some (JObj [("text", JStr "One step at a time.");
                                      ("audio", JStr "UklGRg==")]) |};
     time_time := 1700000000;
     now_second := "20231114_221320";
     now_day := "20231114";
     now_iso := "2023-11-14T22:13:20.000000";
     uuid4 := "1b4e28ba-2fa1-11d2-883f-0016d3cca427";
     b64decode := fun s =>
       if String.eqb s "UklGRg==" then Ok [x52; x49; x46; x46]
       else Raise (MkExn ValueError "Incorrect padding") |}.

(** A reply with a schedule of two records. *)
Definition planned : env :=
  SampleNet.answering
    (Replied {| status_code := 200;
                body := Some (JObj [("schedule",
                                     JArr [Gateway.slot "9:00 AM" (JStr "Ice Pack");
                                           Gateway.slot "2:00 PM" (JStr "Walk")]);
                                    ("confidence", JNum (9 # 10))]) |}).

(** A reply with status 200 and no schedule. *)
Definition blank : env :=
  SampleNet.answering
    (Replied {| status_code := 200; body := Some (JObj [("note", JNull)]) |}).

(** A reply whose audio is a record, not text. *)
Definition wrapped : env :=
  SampleNet.answering
    (Replied {| status_code := 200;
                body := Some (JObj [("text", JStr "One step at a time.");
                                    ("audio", JObj [("data", JStr "UklGRg==")])]) |}).

End SampleReplies.

(** The path of the log of the day, the entry [log_generation] makes, and
    the entries the log holds in world [w]. *)
Definition log_path (th : Routes.TextHandler) (E : env) : string :=
  Routes.storage_dir th ++ "/logs/generation_log_" ++ now_day E ++ ".json".

Definition log_entry (E : env) (generation_type : string) (success : bool)
    (metadata : json) : json :=
  JObj [("timestamp", JStr (now_iso E));
        ("type", JStr generation_type);
        ("success", JBool success);
        ("metadata", Py.or_empty_dict metadata)].

Definition log_of (th : Routes.TextHandler) (E : env) (w : world) : json :=
  default (JArr []) (text_files w !! log_path th E).

(** The world with document [data] written at [path]. *)
Definition written (w : world) (path : string) (data : json) : world :=
  {| sent := sent w; text_files := <[path := data]> (text_files w) |}.

(** The path and the document [save_schedule] writes. *)
Definition schedule_path (th : Routes.TextHandler) (E : env) : string :=
  Routes.storage_dir th ++ "/schedules/schedule_" ++ now_second E ++ "_"
  ++ PyStr.take 8 (uuid4 E) ++ ".json".

Definition schedule_document (E : env) (schedule metadata : json)
    (task_count : Z) : json :=
  JObj [("id", JStr (PyStr.take 8 (uuid4 E)));
        ("schedule", schedule);
        ("task_count", JNum (inject_Z task_count));
        ("created_at", JStr (now_iso E));
        ("metadata", Py.or_empty_dict metadata);
        ("type", JStr "schedule")].

(** The path and the document [save_story] writes. *)
Definition story_path (th : Routes.TextHandler) (E : env) : string :=
  Routes.storage_dir th ++ "/stories/story_" ++ now_second E ++ "_"
  ++ PyStr.take 8 (uuid4 E) ++ ".json".

Definition story_document (E : env) (story_text : string) (metadata : json)
    : json :=
  JObj [("id", JStr (PyStr.take 8 (uuid4 E)));
        ("text", JStr story_text);
        ("word_count",
         JNum (inject_Z (Z.of_nat (List.length (PyStr.split story_text)))));
        ("char_count", JNum (inject_Z (Z.of_nat (String.length story_text))));
        ("created_at", JStr (now_iso E));
        ("metadata", Py.or_empty_dict metadata);
        ("type", JStr "story")].

Module SampleMongo.

Definition config : Mongo.Config :=
  {| Mongo.MONGODB_URI := "mongodb://localhost:27017/";
     Mongo.MONGODB_DB := "vibe rehab" |}.

Definition plain : Mongo.Config :=
  {| Mongo.MONGODB_URI := "mongodb://localhost:27017/";
     Mongo.MONGODB_DB := "viberehab" |}.

(** A driver that makes clients and refuses a database name with a space
    in it. *)
Definition strict : Mongo.driver :=
  {| Mongo.mongo_client := fun _ => Ok 1%nat;
     Mongo.select_db := fun _ name =>
       if PyStr.contains " " name
       then Raise (MkExn Exception "database names cannot contain the character ' '")
       else Ok 2%nat |}.

Definition fresh : Mongo.Database :=
  {| Mongo._client := None; Mongo._db := None |}.

End SampleMongo.

(** * Properties *)

(** ** Strings *)

Section StringFacts.

Lemma endswith_unfold s suffix :
  PyStr.endswith s suffix =
    String.eqb s suffix
    || match s with
       | EmptyString => false
       | String _ s' => PyStr.endswith s' suffix
       end.
Proof. by destruct s. Qed.

Lemma endswith_refl s : PyStr.endswith s s = true.
Proof. by rewrite endswith_unfold, String.eqb_refl. Qed.

Lemma endswith_app s suffix : PyStr.endswith (s ++ suffix) suffix = true.
Proof.
  induction s as [|c s IH].
  - apply endswith_refl.
  - change (String c s ++ suffix) with (String c (s ++ suffix)).
    rewrite endswith_unfold. cbv beta iota.
    rewrite IH. apply orb_true_r.
Qed.

(** [endswith] is the Python method: [s] is some prefix followed by
    [suffix]. *)
Lemma endswith_spec s suffix :
  PyStr.endswith s suffix = true <-> exists p, s = p ++ suffix.
Proof.
  split.
  - induction s as [|c s IH]; rewrite endswith_unfold; intros H.
    + apply orb_true_iff in H as [H|H]; [|done].
      apply String.eqb_eq in H. by exists "".
    + apply orb_true_iff in H as [H|H].
      * apply String.eqb_eq in H. by exists "".
      * destruct (IH H) as [p ->]. by exists (String c p).
  - intros [p ->]. apply endswith_app.
Qed.

End StringFacts.

(** ** The audio store *)

Section AudioStoreFacts.

Import AudioStore.

Implicit Types (fs : disk) (st : disk * Z) (name : string).

Lemma sweep_unfold cutoff fs n name :
  sweep cutoff (fs, n) name =
    if expired cutoff (fs !! (Temp, name))
    then (delete (Temp, name) fs, n + 1) else (fs, n).
Proof.
  unfold sweep, expired.
  destruct (fs !! (Temp, name)) as [[c m|]|]; done.
Qed.

Lemma sweep_other cutoff st name k :
  k <> (Temp, name) -> (sweep cutoff st name).1 !! k = st.1 !! k.
Proof.
  intros Hk. destruct st as [fs n]. rewrite sweep_unfold.
  destruct (expired _ _); simpl; [|done].
  by rewrite lookup_delete_ne.
Qed.

Lemma sweep_keep cutoff st name :
  expired cutoff (st.1 !! (Temp, name)) = false -> sweep cutoff st name = st.
Proof.
  destruct st as [fs n]. rewrite sweep_unfold. simpl. by intros ->.
Qed.

Lemma sweep_gone cutoff st name :
  expired cutoff (st.1 !! (Temp, name)) = true ->
  (sweep cutoff st name).1 !! (Temp, name) = None.
Proof.
  destruct st as [fs n]. rewrite sweep_unfold. simpl. intros ->.
  simpl. apply lookup_delete_eq.
Qed.

Lemma sweep_subseteq cutoff st name : (sweep cutoff st name).1 ⊆ st.1.
Proof.
  destruct st as [fs n]. rewrite sweep_unfold.
  destruct (expired _ _); simpl; [apply delete_subseteq|done].
Qed.

Lemma sweep_count cutoff st name :
  Z.of_nat (size (sweep cutoff st name).1) + (sweep cutoff st name).2
  = Z.of_nat (size st.1) + st.2.
Proof.
  destruct st as [fs n]. rewrite sweep_unfold.
  destruct (expired _ _) eqn:He; simpl; [|done].
  unfold expired in He.
  destruct (fs !! (Temp, name)) as [e|] eqn:Hl; [|done].
  rewrite map_size_delete_Some by (by rewrite Hl).
  assert (size fs <> 0%nat).
  { intros H0. apply map_size_empty_iff in H0. subst fs.
    by rewrite lookup_empty in Hl. }
  lia.
Qed.

Lemma fold_sweep_subseteq cutoff l st :
  (fold_left (sweep cutoff) l st).1 ⊆ st.1.
Proof.
  revert st. induction l as [|a l IH]; intros st; simpl; [done|].
  etrans; [apply IH|apply sweep_subseteq].
Qed.

Lemma fold_sweep_count cutoff l st :
  Z.of_nat (size (fold_left (sweep cutoff) l st).1)
  + (fold_left (sweep cutoff) l st).2
  = Z.of_nat (size st.1) + st.2.
Proof.
  revert st. induction l as [|a l IH]; intros st; simpl; [done|].
  rewrite IH. apply sweep_count.
Qed.

Lemma fold_sweep_none cutoff l st k :
  st.1 !! k = None -> (fold_left (sweep cutoff) l st).1 !! k = None.
Proof.
  intros Hk.
  eapply lookup_weaken_None; [exact Hk|apply fold_sweep_subseteq].
Qed.

Lemma fold_sweep_permanent cutoff l st name :
  (fold_left (sweep cutoff) l st).1 !! (Permanent, name)
  = st.1 !! (Permanent, name).
Proof.
  revert st. induction l as [|a l IH]; intros st; simpl; [done|].
  rewrite IH. by apply sweep_other.
Qed.

Lemma fold_sweep_keep cutoff l st name :
  expired cutoff (st.1 !! (Temp, name)) = false ->
  (fold_left (sweep cutoff) l st).1 !! (Temp, name) = st.1 !! (Temp, name).
Proof.
  revert st. induction l as [|a l IH]; intros st He; simpl; [done|].
  assert ((sweep cutoff st a).1 !! (Temp, name) = st.1 !! (Temp, name)) as Hs.
  { destruct (decide (a = name)) as [->|Hne].
    - by rewrite sweep_keep.
    - apply sweep_other. congruence. }
  rewrite IH; [done|]. by rewrite Hs.
Qed.

Lemma fold_sweep_skipped cutoff l st name :
  name ∉ l ->
  (fold_left (sweep cutoff) l st).1 !! (Temp, name) = st.1 !! (Temp, name).
Proof.
  revert st. induction l as [|a l IH]; intros st Hn; simpl; [done|].
  apply not_elem_of_cons in Hn as [Hne Hn].
  rewrite IH by done. apply sweep_other. congruence.
Qed.

Lemma fold_sweep_expired cutoff l st name :
  name ∈ l ->
  expired cutoff (st.1 !! (Temp, name)) = true ->
  (fold_left (sweep cutoff) l st).1 !! (Temp, name) = None.
Proof.
  revert st. induction l as [|a l IH]; intros st Hin He; simpl.
  - by apply elem_of_nil in Hin.
  - destruct (decide (a = name)) as [->|Hne].
    + apply fold_sweep_none. by apply sweep_gone.
    + apply elem_of_cons in Hin as [->|Hin]; [done|].
      apply IH; [done|]. rewrite sweep_other; [done|congruence].
Qed.

Lemma elem_of_listdir fs d name :
  name ∈ listdir fs d <-> is_Some (fs !! (d, name)).
Proof.
  unfold listdir. rewrite list_elem_of_omap. split.
  - intros ([[d' n] e] & Hin & Hf). simpl in Hf.
    destruct (decide (d' = d)) as [->|]; [|done].
    injection Hf as ->. apply elem_of_map_to_list in Hin. by exists e.
  - intros [e He]. exists (d, name, e). split.
    + by apply elem_of_map_to_list.
    + simpl. by rewrite decide_True.
Qed.

Lemma elem_of_glob fs d suffix name :
  name ∈ glob fs d suffix
  <-> is_Some (fs !! (d, name)) /\ PyStr.endswith name suffix = true.
Proof.
  unfold glob. rewrite list_elem_of_In, filter_In, <- list_elem_of_In.
  by rewrite elem_of_listdir.
Qed.

End AudioStoreFacts.

(** ** Claims about the audio store *)

Section AudioStoreClaims.

Import AudioStore.

Implicit Types (fs : disk) (name : string).

Lemma save_audio_ok h fs now unique_id data filename permanent format :
  data <> [] ->
  fs !! (target_dir permanent, stored_name unique_id filename format)
    <> Some Dir ->
  exists md,
    save_audio h fs now unique_id data filename permanent format
    = Ok (<[(target_dir permanent, stored_name unique_id filename format)
            := File data now]> fs, md)
    /\ AudioStore.filename md = stored_name unique_id filename format
    /\ AudioStore.permanent md = permanent
    /\ relative_path md
       = "audio_outputs/" ++ partition_name (target_dir permanent) ++ "/"
         ++ stored_name unique_id filename format.
Proof.
  intros Hdata Hdir. unfold save_audio.
  destruct data as [|b data]; [done|].
  destruct (fs !! _) as [[c m|]|] eqn:Hl; try done;
    (eexists; split; [reflexivity|]; simpl; by destruct permanent).
Qed.

(** C1. Non-empty audio saved with [permanent=False] and no filename is
    stored as a file of the temp directory, under the name the metadata
    returns, and [get_audio] on that name returns the same bytes. *)
Theorem save_audio_temp_roundtrip h fs now unique_id data format :
  data <> [] ->
  fs !! (Temp, "audio_" ++ unique_id ++ "." ++ format) <> Some Dir ->
  exists fs' md,
    save_audio h fs now unique_id data None false format = Ok (fs', md)
    /\ get_audio h fs' (filename md) = Ok (Some data)
    /\ fs' !! (Temp, filename md) = Some (File data now)
    /\ relative_path md = "audio_outputs/temp/" ++ filename md
    /\ forall name, fs' !! (Permanent, name) = fs !! (Permanent, name).
Proof.
  intros Hdata Hdir.
  destruct (save_audio_ok h fs now unique_id data None false format Hdata Hdir)
    as (md & Hsave & Hname & _ & Hrel).
  eexists _, md. split; [exact Hsave|].
  rewrite Hname, Hrel. simpl.
  assert ((<[(Temp, "audio_" ++ unique_id ++ "." ++ format) := File data now]> fs)
            !! (Temp, "audio_" ++ unique_id ++ "." ++ format)
          = Some (File data now)) as Hl by apply lookup_insert_eq.
  split; [|split; [exact Hl|split; [done|]]].
  - unfold get_audio. cbn [get_audio_in]. by rewrite Hl.
  - intros name. by rewrite lookup_insert_ne.
Qed.

Lemma save_audio_temp_roundtrip_witness :
  exists fs' md,
    save_audio Sample.handler Sample.shelf Sample.ten_am "1b4e28ba"
      Sample.clip None false "wav" = Ok (fs', md)
    /\ get_audio Sample.handler fs' (filename md) = Ok (Some Sample.clip)
    /\ fs' !! (Temp, filename md) = Some (File Sample.clip Sample.ten_am)
    /\ relative_path md = "audio_outputs/temp/" ++ filename md
    /\ forall name, fs' !! (Permanent, name) = Sample.shelf !! (Permanent, name).
Proof.
  apply (save_audio_temp_roundtrip Sample.handler Sample.shelf Sample.ten_am
           "1b4e28ba" Sample.clip "wav").
  - discriminate.
  - vm_compute. discriminate.
Defined.

(** C8. A non-empty filename supplied by the caller is stored with the
    extension of the format appended when it does not end with it and
    unchanged when it does; either way the stored name ends with the
    extension. *)
Theorem save_audio_extension h fs now unique_id data name permanent format :
  data <> [] ->
  name <> "" ->
  fs !! (target_dir permanent, stored_name unique_id (Some name) format)
    <> Some Dir ->
  exists fs' md,
    save_audio h fs now unique_id data (Some name) permanent format
    = Ok (fs', md)
    /\ filename md
       = (if PyStr.endswith name ("." ++ format) then name
          else name ++ "." ++ format)
    /\ PyStr.endswith (filename md) ("." ++ format) = true
    /\ fs' !! (target_dir permanent, filename md) = Some (File data now).
Proof.
  intros Hdata Hname Hdir.
  destruct (save_audio_ok h fs now unique_id data (Some name) permanent format
              Hdata Hdir) as (md & Hsave & Hfile & _ & _).
  eexists _, md. split; [exact Hsave|].
  assert (stored_name unique_id (Some name) format
          = if PyStr.endswith name ("." ++ format) then name
            else name ++ "." ++ format) as Hstored.
  { unfold stored_name.
    destruct (String.eqb_spec name "") as [?|_]; [done|].
    by destruct (PyStr.endswith name _). }
  split; [by rewrite Hfile|]. split.
  - rewrite Hfile, Hstored.
    destruct (PyStr.endswith name _) eqn:He; [done|].
    apply (endswith_app name ("." ++ format)).
  - rewrite Hfile. apply lookup_insert_eq.
Qed.

Lemma save_audio_extension_witness :
  (exists fs' md,
     save_audio Sample.handler Sample.shelf Sample.ten_am "1b4e28ba"
       Sample.clip (Some "story_ab12") true "wav" = Ok (fs', md)
     /\ filename md = "story_ab12.wav")
  /\ (exists fs' md,
        save_audio Sample.handler Sample.shelf Sample.ten_am "1b4e28ba"
          Sample.clip (Some "story_ab12.wav") true "wav" = Ok (fs', md)
        /\ filename md = "story_ab12.wav").
Proof.
  split.
  - destruct (save_audio_extension Sample.handler Sample.shelf Sample.ten_am
                "1b4e28ba" Sample.clip "story_ab12" true "wav")
      as (fs' & md & Hsave & Hname & _).
    + discriminate.
    + discriminate.
    + vm_compute. discriminate.
    + exists fs', md. split; [exact Hsave|exact Hname].
  - destruct (save_audio_extension Sample.handler Sample.shelf Sample.ten_am
                "1b4e28ba" Sample.clip "story_ab12.wav" true "wav")
      as (fs' & md & Hsave & Hname & _).
    + discriminate.
    + discriminate.
    + vm_compute. discriminate.
    + exists fs', md. split; [exact Hsave|exact Hname].
Defined.

(** An empty filename counts as none: the name is generated. *)
Lemma stored_name_empty unique_id format :
  stored_name unique_id (Some "") format = stored_name unique_id None format.
Proof. reflexivity. Qed.

(** C9, as the code has it. The [url] of the metadata of a successful
    [save_audio] is [/api/audio/] followed by the stored filename. *)
Theorem save_audio_url h fs now unique_id data filename permanent format fs' md :
  save_audio h fs now unique_id data filename permanent format = Ok (fs', md) ->
  url md = "/api/audio/" ++ AudioStore.filename md.
Proof.
  unfold save_audio. destruct data as [|b data]; [done|].
  destruct (fs !! _) as [[c m|]|]; intros H; try done;
    injection H as _ <-; reflexivity.
Qed.

Lemma save_audio_url_witness :
  exists fs' md,
    save_audio Sample.handler Sample.shelf Sample.ten_am "1b4e28ba"
      Sample.clip None false "wav" = Ok (fs', md)
    /\ url md = "/api/audio/audio_1b4e28ba.wav".
Proof.
  eexists _, _. split; [reflexivity|].
  exact (save_audio_url Sample.handler Sample.shelf Sample.ten_am "1b4e28ba"
           Sample.clip None false "wav" _ _ eq_refl).
Defined.

(** C9, as the specification words it, fails: the [url] is not [/audio/]
    followed by the stored filename. *)
Lemma save_audio_url_not_bare :
  exists fs' md,
    save_audio Sample.handler Sample.shelf Sample.ten_am "1b4e28ba"
      Sample.clip None false "wav" = Ok (fs', md)
    /\ url md <> "/audio/" ++ AudioStore.filename md.
Proof.
  eexists _, _. split; [reflexivity|]. vm_compute. discriminate.
Qed.

End AudioStoreClaims.

(** ** Claims about the retention sweeper *)

Section SweeperClaims.

Import AudioStore.

Implicit Types (fs : disk) (name : string).

Lemma expired_file cutoff content mtime :
  expired cutoff (Some (File content mtime)) = bool_decide (mtime < cutoff).
Proof.
  unfold expired. destruct (Z.ltb_spec mtime cutoff).
  - by rewrite bool_decide_eq_true_2.
  - rewrite bool_decide_eq_false_2; [done|lia].
Qed.

(** What the loops of [cleanup_temp_files] do to one regular file of the
    temp directory whose name one of the two patterns matches. *)
Lemma sweep_temp_files_lookup fs cutoff name content mtime :
  fs !! (Temp, name) = Some (File content mtime) ->
  swept_name name = true ->
  (sweep_temp_files fs cutoff).1 !! (Temp, name)
  = if bool_decide (mtime < cutoff) then None
    else Some (File content mtime).
Proof.
  intros Hl Hs. unfold sweep_temp_files.
  set (st := fold_left (sweep cutoff) (glob fs Temp ".wav") (fs, 0)).
  pose proof (expired_file cutoff content mtime) as He.
  destruct (bool_decide (mtime < cutoff)) eqn:Hd.
  - (* old enough: whichever loop meets it deletes it *)
    destruct (st.1 !! (Temp, name)) as [e|] eqn:Hst.
    + assert (e = File content mtime) as ->.
      { pose proof (fold_sweep_subseteq cutoff (glob fs Temp ".wav") (fs, 0))
          as Hsub.
        eapply lookup_weaken in Hsub; [|exact Hst]. simpl in Hsub. congruence. }
      assert (PyStr.endswith name ".mp3" = true) as Hmp3.
      { unfold swept_name in Hs. apply orb_true_iff in Hs as [Hwav|Hmp3]; [|done].
        exfalso.
        assert ((fold_left (sweep cutoff) (glob fs Temp ".wav") (fs, 0)).1
                  !! (Temp, name) = None) as Hgone.
        { apply fold_sweep_expired.
          - apply elem_of_glob. split; [by rewrite Hl|done].
          - simpl. by rewrite Hl. }
        fold st in Hgone. congruence. }
      apply fold_sweep_expired.
      * apply elem_of_glob. split; [by rewrite Hst|done].
      * by rewrite Hst.
    + by apply fold_sweep_none.
  - (* too recent: neither loop touches it *)
    assert (st.1 !! (Temp, name) = Some (File content mtime)) as Hst.
    { unfold st. rewrite fold_sweep_keep; simpl; by rewrite Hl. }
    rewrite fold_sweep_keep; by rewrite Hst.
Qed.

Lemma sweep_temp_files_subseteq fs cutoff : (sweep_temp_files fs cutoff).1 ⊆ fs.
Proof.
  unfold sweep_temp_files.
  etrans; [apply fold_sweep_subseteq|].
  apply (fold_sweep_subseteq _ _ (fs, 0)).
Qed.

Lemma sweep_temp_files_count fs cutoff :
  Z.of_nat (size (sweep_temp_files fs cutoff).1) + (sweep_temp_files fs cutoff).2
  = Z.of_nat (size fs).
Proof.
  unfold sweep_temp_files.
  set (st := fold_left (sweep cutoff) (glob fs Temp ".wav") (fs, 0)).
  pose proof (fold_sweep_count cutoff (glob st.1 Temp ".mp3") st) as H2.
  pose proof (fold_sweep_count cutoff (glob fs Temp ".wav") (fs, 0)) as H1.
  fold st in H1. simpl in H1. lia.
Qed.

(** Within the range, [cleanup_temp_files] is its two loops at the cutoff
    [now - timedelta(hours=max_age_hours)]. *)
Lemma cleanup_temp_files_in_range fs now max_age_hours :
  cutoff_in_range now max_age_hours ->
  cleanup_temp_files fs now max_age_hours
  = ((sweep_temp_files fs (now - hours max_age_hours)).1,
     Ok (sweep_temp_files fs (now - hours max_age_hours)).2).
Proof.
  intros [Hdays [Hmin Hmax]]. unfold cleanup_temp_files, timedelta_hours.
  cbv zeta. rewrite (proj2 (Z.leb_le _ _) Hdays). unfold datetime_sub.
  by rewrite (proj2 (Z.leb_le _ _) Hmin), (proj2 (Z.leb_le _ _) Hmax).
Qed.

(** Outside the range, [cleanup_temp_files] raises an [OverflowError] and
    leaves the disk as it was. *)
Lemma cleanup_temp_files_out_of_range fs now max_age_hours :
  ~ cutoff_in_range now max_age_hours ->
  exists e,
    cleanup_temp_files fs now max_age_hours = (fs, Raise e)
    /\ exn_cls e = OverflowError.
Proof.
  intros Hout. unfold cleanup_temp_files, timedelta_hours. cbv zeta.
  destruct (Z.leb_spec (Z.abs (max_age_hours / 24)) 999999999) as [Hdays|_];
    [|by case (_ && _); eexists].
  unfold datetime_sub.
  destruct (Z.leb_spec datetime_min (now - hours max_age_hours)) as [Hmin|_];
    [|by eexists].
  destruct (Z.leb_spec (now - hours max_age_hours) datetime_max) as [Hmax|_];
    [|by eexists].
  by destruct Hout.
Qed.

(** The disk [cleanup_temp_files] leaves is the one it found or the one
    its loops leave. *)
Lemma cleanup_temp_files_disk fs now max_age_hours :
  (cleanup_temp_files fs now max_age_hours).1 = fs
  \/ exists cutoff,
       (cleanup_temp_files fs now max_age_hours).1
       = (sweep_temp_files fs cutoff).1.
Proof.
  unfold cleanup_temp_files.
  destruct (timedelta_hours max_age_hours) as [delta|e]; [|by left].
  destruct (datetime_sub now delta) as [cutoff|e]; [|by left].
  right. by exists cutoff.
Qed.

(** C2. Where the cutoff can be computed, a regular wav or mp3 file of the
    temp directory is deleted by [cleanup_temp_files] exactly when the time
    since its last modification exceeds [max_age_hours]; a file that stays
    is left as it was; the count returned is the number of entries that
    went; and with [max_age_hours = 0] a file modified at the instant of
    the sweep stays. *)
Theorem cleanup_temp_files_strict fs now max_age_hours name content mtime :
  fs !! (Temp, name) = Some (File content mtime) ->
  swept_name name = true ->
  cutoff_in_range now max_age_hours ->
  let after := (cleanup_temp_files fs now max_age_hours).1 in
  exists deleted_count,
    (cleanup_temp_files fs now max_age_hours).2 = Ok deleted_count
    /\ (after !! (Temp, name) = None <-> now - mtime > hours max_age_hours)
    /\ (now - mtime <= hours max_age_hours ->
        after !! (Temp, name) = Some (File content mtime))
    /\ after ⊆ fs
    /\ deleted_count = Z.of_nat (size fs) - Z.of_nat (size after)
    /\ (max_age_hours = 0 -> mtime = now ->
        after !! (Temp, name) = Some (File content mtime)).
Proof.
  intros Hl Hs Hrange after. unfold after.
  rewrite (cleanup_temp_files_in_range _ _ _ Hrange). cbn [fst snd].
  set (cutoff := now - hours max_age_hours).
  eexists. split; [reflexivity|].
  pose proof (sweep_temp_files_lookup fs cutoff name content mtime Hl Hs)
    as Hlook.
  assert (now - mtime <= hours max_age_hours ->
          (sweep_temp_files fs cutoff).1 !! (Temp, name)
          = Some (File content mtime)) as Hkeep.
  { intros Hle. rewrite Hlook. rewrite bool_decide_eq_false_2; [done|].
    unfold cutoff. lia. }
  split; [|split; [exact Hkeep|split; [|split]]].
  - rewrite Hlook. case_bool_decide; unfold cutoff in *; split; try done; lia.
  - apply sweep_temp_files_subseteq.
  - pose proof (sweep_temp_files_count fs cutoff). lia.
  - intros -> ->. apply Hkeep. unfold hours. lia.
Qed.

Lemma cleanup_temp_files_strict_witness :
  (cleanup_temp_files Sample.shelf Sample.ten_am 1).1 !! (Temp, "old.wav") = None
  /\ (cleanup_temp_files Sample.shelf Sample.ten_am 0).1 !! (Temp, "fresh.mp3")
     = Some (File Sample.clip Sample.ten_am)
  /\ (cleanup_temp_files Sample.shelf Sample.ten_am 1).2 = Ok 1.
Proof.
  assert (Sample.shelf !! (Temp, "old.wav")
          = Some (File Sample.clip (Sample.ten_am - hours 2))) as Hold
    by (vm_compute; reflexivity).
  assert (Sample.shelf !! (Temp, "fresh.mp3")
          = Some (File Sample.clip Sample.ten_am)) as Hfresh
    by (vm_compute; reflexivity).
  assert (cutoff_in_range Sample.ten_am 1) as Hrange1
    by (vm_compute; intuition discriminate).
  assert (cutoff_in_range Sample.ten_am 0) as Hrange0
    by (vm_compute; intuition discriminate).
  pose proof (cleanup_temp_files_strict Sample.shelf Sample.ten_am 1 "old.wav"
                Sample.clip (Sample.ten_am - hours 2) Hold eq_refl Hrange1) as H1.
  pose proof (cleanup_temp_files_strict Sample.shelf Sample.ten_am 0 "fresh.mp3"
                Sample.clip Sample.ten_am Hfresh eq_refl Hrange0) as H0.
  cbv zeta in H1, H0.
  destruct H1 as (n1 & _ & Hgone & _ & _ & _ & _).
  destruct H0 as (n0 & _ & _ & _ & _ & _ & Hstays).
  split; [|split].
  - apply Hgone. vm_compute. reflexivity.
  - apply Hstays; reflexivity.
  - vm_compute. reflexivity.
Defined.

(** The ages the range excludes make [cleanup_temp_files] raise: the cutoff
    would lie after year 9999 or before year 1, or the age is more days
    than a [timedelta] holds. Nothing is deleted. *)
Example cleanup_temp_files_overflow :
  cleanup_temp_files Sample.shelf Sample.ten_am 20000000
  = (Sample.shelf, Raise (MkExn OverflowError "date value out of range"))
  /\ cleanup_temp_files Sample.shelf Sample.ten_am (-100000000)
     = (Sample.shelf, Raise (MkExn OverflowError "date value out of range"))
  /\ cleanup_temp_files Sample.shelf Sample.ten_am (-24000000000)
     = (Sample.shelf,
        Raise (MkExn OverflowError
                 "days=-1000000000; must have magnitude <= 999999999"))
  /\ cleanup_temp_files Sample.shelf Sample.ten_am 1000000000000
     = (Sample.shelf,
        Raise (MkExn OverflowError
                 "Python int too large to convert to C int")).
Proof. repeat split. Qed.

(** Names neither pattern matches, [ogg] files among them, are left
    alone. *)
Lemma sweep_temp_files_other_names fs cutoff name :
  swept_name name = false ->
  (sweep_temp_files fs cutoff).1 !! (Temp, name) = fs !! (Temp, name).
Proof.
  intros Hs. unfold swept_name in Hs.
  apply orb_false_iff in Hs as [Hwav Hmp3].
  unfold sweep_temp_files.
  rewrite !fold_sweep_skipped; [done| |].
  - rewrite elem_of_glob. intros [_ H]. congruence.
  - rewrite elem_of_glob. intros [_ H]. congruence.
Qed.

Lemma cleanup_temp_files_other_names fs now max_age_hours name :
  swept_name name = false ->
  (cleanup_temp_files fs now max_age_hours).1 !! (Temp, name)
  = fs !! (Temp, name).
Proof.
  intros Hs.
  destruct (cleanup_temp_files_disk fs now max_age_hours) as [->|[cutoff ->]];
    [done|].
  by apply sweep_temp_files_other_names.
Qed.

(** C3. [cleanup_temp_files] leaves every entry of the permanent
    directory as it was, whatever the files and whatever
    [max_age_hours]. *)
Theorem cleanup_temp_files_permanent fs now max_age_hours name :
  (cleanup_temp_files fs now max_age_hours).1 !! (Permanent, name)
  = fs !! (Permanent, name).
Proof.
  destruct (cleanup_temp_files_disk fs now max_age_hours) as [->|[cutoff ->]];
    [done|].
  unfold sweep_temp_files. by rewrite !fold_sweep_permanent.
Qed.

(** The permanent file of the sample, as old as the temp file that goes,
    stays. *)
Example cleanup_temp_files_permanent_sample :
  (cleanup_temp_files Sample.shelf Sample.ten_am 1).1 !! (Permanent, "old.wav")
  = Some (File Sample.clip (Sample.ten_am - hours 2))
  /\ (cleanup_temp_files Sample.shelf Sample.ten_am 1).1 !! (Temp, "old.wav")
     = None.
Proof. vm_compute. done. Qed.

End SweeperClaims.

(** ** Claims about the generation gateway *)

Section GatewayClaims.

Import Gateway.

Lemma of_int_200 status : status <> 200 -> (status =? 200)%Z = false.
Proof. intros H. by apply Z.eqb_neq. Qed.

(** C4. When the endpoint cannot be reached, [generate_story] returns the
    story of the fixed pool at index [time mod 3], with no audio; when it
    answers with a status other than 200, [generate_story] raises and does
    not fall back. *)
Theorem generate_story_failure_modes self E context w :
  (forall reason,
      endpoint E (story_request self context) = Unreachable reason ->
      let text := nth (Z.to_nat (time_time E mod 3)) stories "" in
      generate_story self E context w
      = (Ok (JStr text, None), after_request w (story_request self context))
      /\ In text stories)
  /\ (forall status payload,
         endpoint E (story_request self context)
         = Replied {| status_code := status; body := payload |} ->
         status <> 200 ->
         generate_story self E context w
         = (Raise (MkExn Exception
                     ("Failed to generate story: Model API returned status "
                      ++ PyStr.of_int status)),
            after_request w (story_request self context))).
Proof.
  split.
  - intros reason Hnet text. split.
    + unfold generate_story, try_except, bind, requests_post.
      by rewrite Hnet.
    + unfold text. apply nth_In.
      pose proof (Z.mod_pos_bound (time_time E) 3 ltac:(lia)).
      simpl. lia.
  - intros status payload Hnet Hstatus.
    unfold generate_story, try_except, bind, requests_post.
    rewrite Hnet. cbn [status_code]. by rewrite of_int_200.
Qed.

Lemma generate_story_failure_modes_witness :
  generate_story SampleNet.service SampleNet.offline SampleNet.context
    SampleNet.quiet
  = (Ok (JStr (nth 2 stories ""), None),
     after_request SampleNet.quiet
       (story_request SampleNet.service SampleNet.context))
  /\ generate_story SampleNet.service SampleNet.overloaded SampleNet.context
       SampleNet.quiet
     = (Raise (MkExn Exception
                 "Failed to generate story: Model API returned status 503"),
        after_request SampleNet.quiet
          (story_request SampleNet.service SampleNet.context)).
Proof.
  split.
  - destruct (generate_story_failure_modes SampleNet.service SampleNet.offline
                SampleNet.context SampleNet.quiet) as [Hdown _].
    exact (proj1 (Hdown "Connection refused" eq_refl)).
  - destruct (generate_story_failure_modes SampleNet.service
                SampleNet.overloaded SampleNet.context SampleNet.quiet)
      as [_ Hup].
    apply (Hup 503 None eq_refl). discriminate.
Defined.

(** Without a reply, [generate_schedule] is the fallback scheduler. *)
Lemma generate_schedule_falls_back self E tasks user_profile w reason :
  endpoint E (schedule_request self tasks user_profile) = Unreachable reason ->
  generate_schedule self E tasks user_profile w
  = (_generate_fallback_schedule tasks,
     after_request w (schedule_request self tasks user_profile)).
Proof.
  intros Hnet.
  unfold generate_schedule, try_except, bind, requests_post.
  by rewrite Hnet.
Qed.

(** C6. On the single task "Check Posture" the fallback scheduler yields
    three entries for that task, at hours 11, 13 and 15, printed as
    11:00 AM, 1:00 PM and 3:00 PM. *)
Theorem fallback_schedule_check_posture :
  _generate_fallback_schedule [JStr "Check Posture"]
  = Ok {| schedule :=
            JArr (map (fun h => slot (hour_label h) (JStr "Check Posture"))
                      [11; 11 + 2; 11 + 2 + 2]);
          metadata := JObj [("source", JStr "fallback")];
          confidence := JNum (1 # 2) |}
  /\ map hour_label [11; 11 + 2; 11 + 2 + 2]
     = ["11:00 AM"; "1:00 PM"; "3:00 PM"].
Proof. split; reflexivity. Qed.

Lemma task_lower_str name : task_lower (JStr name) = Ok (PyStr.lower name).
Proof. reflexivity. Qed.

Lemma fallback_loop_plan names schedule current_hour :
  fallback_loop (map JStr names) schedule current_hour
  = Ok (schedule ++ plan names current_hour)%list.
Proof.
  revert schedule current_hour.
  induction names as [|name names IH]; intros schedule current_hour.
  - simpl. by rewrite app_nil_r.
  - cbn [map fallback_loop plan]. rewrite task_lower_str.
    fold (is_posture name). fold (is_walk name).
    destruct (is_posture name); [|destruct (is_walk name)];
      rewrite IH; f_equal; by rewrite <- app_assoc.
Qed.

Lemma plan_without_posture names current_hour :
  List.filter (fun e => negb (entry_is_posture e)) (plan names current_hour)
  = plan (List.filter (fun name => negb (is_posture name)) names) current_hour.
Proof.
  revert current_hour.
  induction names as [|name names IH]; intros current_hour; [done|].
  cbn [plan List.filter].
  destruct (is_posture name) eqn:Hp; cbn [negb].
  - rewrite List.filter_app, IH.
    cbn [map List.filter entry_is_posture slot Py.assoc String.eqb Ascii.eqb
         Bool.eqb].
    by rewrite Hp.
  - cbn [plan]. rewrite Hp.
    destruct (is_walk name);
      cbn [List.filter entry_is_posture slot Py.assoc String.eqb Ascii.eqb
           Bool.eqb];
      rewrite Hp; cbn [negb]; by rewrite IH.
Qed.

(** C10. For every list of task names, the entries of the fallback
    schedule that belong to tasks without "posture" in their name are the
    fallback schedule of the list without the posture tasks: same
    entries, same times, same order. *)
Theorem fallback_schedule_posture_keeps_cursor (names : list string) :
  exists with_posture without_posture,
    _generate_fallback_schedule (map JStr names)
    = Ok {| schedule := JArr with_posture;
            metadata := JObj [("source", JStr "fallback")];
            confidence := JNum (1 # 2) |}
    /\ _generate_fallback_schedule
         (map JStr (List.filter (fun name => negb (is_posture name)) names))
       = Ok {| schedule := JArr without_posture;
               metadata := JObj [("source", JStr "fallback")];
               confidence := JNum (1 # 2) |}
    /\ List.filter (fun e => negb (entry_is_posture e)) with_posture
       = without_posture.
Proof.
  exists (plan names 11),
         (plan (List.filter (fun name => negb (is_posture name)) names) 11).
  unfold _generate_fallback_schedule. rewrite !fallback_loop_plan.
  split; [done|]. split; [done|]. apply plan_without_posture.
Qed.

(** A list with posture tasks among the others. *)
Example fallback_schedule_mixed :
  _generate_fallback_schedule
    [JStr "Knee Stretches"; JStr "Check Posture"; JStr "10-min Walk";
     JStr "Ice Pack"]
  = Ok {| schedule :=
            JArr [slot "11:00 AM" (JStr "Knee Stretches");
                  slot "1:00 PM" (JStr "Check Posture");
                  slot "3:00 PM" (JStr "Check Posture");
                  slot "5:00 PM" (JStr "Check Posture");
                  slot "5:00 PM" (JStr "10-min Walk");
                  slot "1:00 PM" (JStr "Ice Pack")];
          metadata := JObj [("source", JStr "fallback")];
          confidence := JNum (1 # 2) |}.
Proof. reflexivity. Qed.

End GatewayClaims.

(** ** The validation of a remote schedule *)

Section ValidationFacts.

Import Gateway.

(** [validate] raises only a [ValueError] or a [TypeError]. *)
Lemma validate_raises items e :
  validate items = Raise e -> is_request_exception e = false.
Proof.
  induction items as [|item items IH]; [done|].
  cbn [validate].
  destruct (Py.contains "time" item) as [[|]|e1] eqn:H1.
  - destruct (Py.contains "task" item) as [[|]|e2] eqn:H2.
    + exact IH.
    + by intros [= <-].
    + intros [= <-]. destruct item; by simplify_eq/=.
  - by intros [= <-].
  - intros [= <-]. destruct item; by simplify_eq/=.
Qed.

(** An entry that is a record without ["time"] or without ["task"] makes
    [validate] raise. *)
Lemma validate_rejects_record items fields :
  JObj fields ∈ items ->
  Py.assoc "time" fields = None \/ Py.assoc "task" fields = None ->
  exists e, validate items = Raise e.
Proof.
  intros Hin Hmiss.
  induction items as [|item items IH]; [by apply elem_of_nil in Hin|].
  cbn [validate].
  destruct (Py.contains "time" item) as [[|]|e1] eqn:H1; [|by eexists..].
  destruct (Py.contains "task" item) as [[|]|e2] eqn:H2; [|by eexists..].
  apply elem_of_cons in Hin as [<-|Hin]; [|by apply IH].
  exfalso. cbn [Py.contains] in H1, H2.
  injection H1 as H1. injection H2 as H2.
  apply bool_decide_eq_true in H1 as [x1 Hx1].
  apply bool_decide_eq_true in H2 as [x2 Hx2].
  destruct Hmiss; congruence.
Qed.

(** With status 200 and a schedule that is a list with such a record,
    [generate_schedule] raises and does not fall back. *)
Lemma generate_schedule_rejects_record self E tasks user_profile w
    result items fields :
  endpoint E (schedule_request self tasks user_profile)
  = Replied {| status_code := 200; body := Some (JObj result) |} ->
  Py.assoc "schedule" result = Some (JArr items) ->
  JObj fields ∈ items ->
  Py.assoc "time" fields = None \/ Py.assoc "task" fields = None ->
  exists msg,
    generate_schedule self E tasks user_profile w
    = (Raise (MkExn Exception ("Failed to generate schedule: " ++ msg)),
       after_request w (schedule_request self tasks user_profile)).
Proof.
  intros Hnet Hsched Hin Hmiss.
  destruct (validate_rejects_record items fields Hin Hmiss) as [e He].
  exists (str_exn e).
  unfold generate_schedule, try_except, bind, requests_post, lift.
  rewrite Hnet. cbn. rewrite Hsched. cbn. rewrite He.
  by rewrite (validate_raises items e He).
Qed.

(** C5 fails on the code. A reply with status 200 whose schedule has an
    entry that is a string with "time" and "task" in it, and so has
    neither field, passes the validation: [generate_schedule] returns the
    schedule instead of raising. *)
Theorem generate_schedule_accepts_sentence :
  generate_schedule SampleNet.service SampleNet.chatty
    [JStr "Check Posture"] JNull SampleNet.quiet
  = (Ok {| schedule := JArr [JStr "take time for the task"];
           metadata := JObj [];
           confidence := JNum 0 |},
     after_request SampleNet.quiet
       (schedule_request SampleNet.service [JStr "Check Posture"] JNull)).
Proof. reflexivity. Qed.

End ValidationFacts.

(** ** Claims about the schedule route *)

Section RouteClaims.

(** C7. A request body whose [tasks] is the empty list is answered by the
    route with status 400 and the message of the guard, and the world is
    left as it was: no request has gone to the endpoint. *)
Theorem generate_schedule_route_empty_tasks model_service text_handler E data w :
  Py.getitem data "tasks" = Ok (JArr []) ->
  Routes.generate_schedule model_service text_handler E data w
  = (Ok (JObj [("error", JStr "Tasks must be a non-empty array");
               ("success", JBool false)], 400), w)
  /\ sent (Routes.generate_schedule model_service text_handler E data w).2
     = sent w.
Proof.
  intros Htasks.
  assert (Routes.generate_schedule model_service text_handler E data w
          = (Ok (Routes.failure "Tasks must be a non-empty array" 400), w))
    as Hrun.
  { destruct data as [| | | | |fields]; try done.
    cbn [Py.getitem] in Htasks.
    destruct (Py.assoc "tasks" fields) as [v|] eqn:Hassoc; [|done].
    injection Htasks as ->.
    unfold Routes.generate_schedule, try_except, bind, lift.
    destruct fields as [|kv fields]; [done|].
    cbn [Py.truthy negb Py.contains Py.getitem Py.get].
    rewrite Hassoc.
    rewrite bool_decide_eq_true_2 by (by eexists).
    reflexivity. }
  rewrite Hrun. done.
Qed.

Lemma generate_schedule_route_empty_tasks_witness :
  Routes.generate_schedule SampleNet.service SampleNet.text_handler
    SampleNet.offline (JObj [("tasks", JArr [])]) SampleNet.quiet
  = (Ok (JObj [("error", JStr "Tasks must be a non-empty array");
               ("success", JBool false)], 400), SampleNet.quiet).
Proof.
  exact (proj1 (generate_schedule_route_empty_tasks SampleNet.service
                  SampleNet.text_handler SampleNet.offline
                  (JObj [("tasks", JArr [])]) SampleNet.quiet eq_refl)).
Defined.

(** The guard is the route's: the service called with no tasks sends its
    request, and without a reply returns an empty fallback schedule. *)
Lemma generate_schedule_service_empty_tasks self E user_profile w reason :
  endpoint E (Gateway.schedule_request self [] user_profile)
  = Unreachable reason ->
  Gateway.generate_schedule self E [] user_profile w
  = (Ok {| Gateway.schedule := JArr [];
           Gateway.metadata := JObj [("source", JStr "fallback")];
           Gateway.confidence := JNum (1 # 2) |},
     after_request w (Gateway.schedule_request self [] user_profile)).
Proof.
  intros Hnet. by rewrite (generate_schedule_falls_back _ _ _ _ _ _ Hnet).
Qed.

(** The route on a request with one task and no reply from the endpoint:
    the fallback schedule is stored and logged, and returned with status
    200. *)
Example generate_schedule_route_sample :
  (Routes.generate_schedule SampleNet.service SampleNet.text_handler
     SampleNet.offline (JObj [("tasks", JArr [JStr "Ice Pack"])])
     SampleNet.quiet).1
  = Ok (JObj [("schedule",
               JArr [Gateway.slot "11:00 AM" (JStr "Ice Pack")]);
              ("scheduleId", JStr "1b4e28ba");
              ("taskCount", JNum 1);
              ("confidence", JNum (1 # 2));
              ("metadata", JObj [("source", JStr "fallback")]);
              ("success", JBool true)], 200).
Proof. vm_compute. reflexivity. Qed.

End RouteClaims.

(** * Further properties *)

(** ** More about the audio store *)

Section AudioStoreMore.

Import AudioStore.

Implicit Types (fs : disk) (name : string).

Lemma save_audio_inv h fs now unique_id data filename permanent format fs' md :
  save_audio h fs now unique_id data filename permanent format = Ok (fs', md) ->
  data <> []
  /\ fs !! (target_dir permanent, stored_name unique_id filename format)
     <> Some Dir
  /\ fs' = <[(target_dir permanent, stored_name unique_id filename format)
             := File data now]> fs
  /\ AudioStore.filename md = stored_name unique_id filename format
  /\ AudioStore.permanent md = permanent
  /\ url md = "/api/audio/" ++ stored_name unique_id filename format.
Proof.
  unfold save_audio. destruct data as [|b data]; [done|].
  destruct (fs !! _) as [[c m|]|] eqn:Hl; intros H; try done;
    injection H as <- <-; repeat split; try done; by rewrite Hl.
Qed.

(** A successful [save_audio] changes one path of the disk and no
    other: the path of the stored name in the directory chosen by
    [permanent]. *)
Theorem save_audio_frame h fs now unique_id data filename permanent format
    fs' md d name :
  save_audio h fs now unique_id data filename permanent format = Ok (fs', md) ->
  (d, name) <> (target_dir permanent, AudioStore.filename md) ->
  fs' !! (d, name) = fs !! (d, name).
Proof.
  intros Hsave Hne.
  destruct (save_audio_inv _ _ _ _ _ _ _ _ _ _ Hsave)
    as (_ & _ & -> & Hname & _ & _).
  rewrite Hname in Hne. by rewrite lookup_insert_ne.
Qed.

Lemma save_audio_frame_witness :
  exists fs' md,
    save_audio Sample.handler SampleFiles.twins 11 "1b4e28ba" Sample.clip
      (Some "hello") false "mp3" = Ok (fs', md)
    /\ fs' !! (Temp, "clip.wav") = SampleFiles.twins !! (Temp, "clip.wav").
Proof.
  eexists _, _. split; [reflexivity|].
  apply (save_audio_frame Sample.handler SampleFiles.twins 11 "1b4e28ba"
           Sample.clip (Some "hello") false "mp3" _ _ Temp "clip.wav" eq_refl).
  discriminate.
Defined.

(** X1. Saving twice under the same filename keeps one file: the second
    save replaces the content and the modification time of the first, and
    the disk holds as many entries as after the first. *)
Theorem save_audio_overwrites h fs now1 now2 id1 id2 data1 data2 name
    permanent format fs1 md1 fs2 md2 :
  name <> "" ->
  save_audio h fs now1 id1 data1 (Some name) permanent format = Ok (fs1, md1) ->
  save_audio h fs1 now2 id2 data2 (Some name) permanent format = Ok (fs2, md2) ->
  AudioStore.filename md2 = AudioStore.filename md1
  /\ fs2 !! (target_dir permanent, AudioStore.filename md1)
     = Some (File data2 now2)
  /\ size fs2 = size fs1.
Proof.
  intros Hname H1 H2.
  destruct (save_audio_inv _ _ _ _ _ _ _ _ _ _ H1) as (_ & _ & -> & Hn1 & _ & _).
  destruct (save_audio_inv _ _ _ _ _ _ _ _ _ _ H2) as (_ & _ & -> & Hn2 & _ & _).
  assert (stored_name id2 (Some name) format = stored_name id1 (Some name) format)
    as Hsame.
  { unfold stored_name. by destruct (String.eqb_spec name ""). }
  rewrite Hn1, Hn2, Hsame. split; [done|]. split.
  - apply lookup_insert_eq.
  - rewrite insert_insert_eq.
    rewrite !map_size_insert. by destruct (fs !! _).
Qed.

Lemma save_audio_overwrites_witness :
  exists fs1 md1 fs2 md2,
    save_audio Sample.handler SampleFiles.twins 11 "a" [x0a] (Some "hello")
      false "wav" = Ok (fs1, md1)
    /\ save_audio Sample.handler fs1 12 "b" [x0b] (Some "hello") false "wav"
       = Ok (fs2, md2)
    /\ fs2 !! (Temp, "hello.wav") = Some (File [x0b] 12)
    /\ size fs2 = size fs1.
Proof.
  eexists _, _, _, _. split; [reflexivity|]. split; [reflexivity|].
  destruct (save_audio_overwrites Sample.handler SampleFiles.twins 11 12 "a" "b"
              [x0a] [x0b] "hello" false "wav" _ _ _ _ ltac:(discriminate)
              eq_refl eq_refl) as (_ & Hfile & Hsize).
  split; [exact Hfile|exact Hsize].
Defined.

Lemma get_audio_temp h fs name content mtime :
  fs !! (Temp, name) = Some (File content mtime) ->
  get_audio h fs name = Ok (Some content).
Proof. intros H. unfold get_audio. cbn [get_audio_in]. by rewrite H. Qed.

Lemma get_audio_permanent h fs name :
  fs !! (Temp, name) = None ->
  get_audio h fs name
  = match fs !! (Permanent, name) with
    | Some (File content _) => Ok (Some content)
    | Some Dir => Raise (MkExn IsADirectoryError (path_str h Permanent name))
    | None => Ok None
    end.
Proof.
  intros H. unfold get_audio. cbn [get_audio_in]. rewrite H.
  by destruct (fs !! (Permanent, name)) as [[c m|]|].
Qed.

(** X2. Audio saved with [permanent=True] is returned by [get_audio] when
    the temp directory has no entry of that name; when it has a file of
    that name, [get_audio] returns that file instead of what was saved. *)
Theorem save_audio_permanent_shadowed h fs now unique_id data filename format
    fs' md :
  save_audio h fs now unique_id data filename true format = Ok (fs', md) ->
  fs' !! (Permanent, AudioStore.filename md) = Some (File data now)
  /\ (fs !! (Temp, AudioStore.filename md) = None ->
      get_audio h fs' (AudioStore.filename md) = Ok (Some data))
  /\ (forall content mtime,
         fs !! (Temp, AudioStore.filename md) = Some (File content mtime) ->
         get_audio h fs' (AudioStore.filename md) = Ok (Some content)).
Proof.
  intros Hsave.
  destruct (save_audio_inv _ _ _ _ _ _ _ _ _ _ Hsave)
    as (_ & _ & -> & Hname & _ & _).
  rewrite Hname. cbn [target_dir].
  split; [apply lookup_insert_eq|]. split.
  - intros Hnone. rewrite get_audio_permanent.
    + by rewrite lookup_insert_eq.
    + by rewrite lookup_insert_ne.
  - intros content mtime Htemp.
    apply (get_audio_temp _ _ _ content mtime).
    by rewrite lookup_insert_ne.
Qed.

Lemma save_audio_permanent_shadowed_witness :
  exists fs' md,
    save_audio Sample.handler SampleFiles.twins 11 "a" [x0a] (Some "clip")
      true "wav" = Ok (fs', md)
    /\ get_audio Sample.handler fs' "clip.wav" = Ok (Some [x01; x02]).
Proof.
  eexists _, _. split; [reflexivity|].
  destruct (save_audio_permanent_shadowed Sample.handler SampleFiles.twins 11
              "a" [x0a] (Some "clip") "wav" _ _ eq_refl) as (_ & _ & Hshadow).
  apply (Hshadow [x01; x02] 5). vm_compute. reflexivity.
Defined.

Lemma delete_audio_temp h fs name content mtime :
  fs !! (Temp, name) = Some (File content mtime) ->
  delete_audio h fs name = Ok (delete (Temp, name) fs, true).
Proof. intros H. unfold delete_audio. cbn [delete_audio_in]. by rewrite H. Qed.

(** [delete_audio] returns [False] exactly when neither directory has
    the name, and then the disk is left as it was. *)
Theorem delete_audio_not_found h fs name :
  (fs !! (Temp, name) = None /\ fs !! (Permanent, name) = None
   -> delete_audio h fs name = Ok (fs, false))
  /\ (forall fs', delete_audio h fs name = Ok (fs', false) ->
      fs' = fs /\ fs !! (Temp, name) = None /\ fs !! (Permanent, name) = None).
Proof.
  unfold delete_audio. cbn [delete_audio_in]. split.
  - by intros [-> ->].
  - intros fs'.
    destruct (fs !! (Temp, name)) as [[c m|]|]; [done..|].
    destruct (fs !! (Permanent, name)) as [[c m|]|]; [done..|].
    by intros [= <-].
Qed.

Lemma delete_audio_not_found_witness :
  delete_audio Sample.handler SampleFiles.twins "missing.wav"
  = Ok (SampleFiles.twins, false).
Proof.
  apply (delete_audio_not_found Sample.handler SampleFiles.twins "missing.wav").
  split; vm_compute; reflexivity.
Defined.

(** X3. A name that both directories hold as a file takes two deletes:
    the first removes the temp file only, after which [get_audio] returns
    the permanent one; the second removes that one, after which
    [get_audio] finds nothing. *)
Theorem delete_audio_twice h fs name c1 m1 c2 m2 :
  fs !! (Temp, name) = Some (File c1 m1) ->
  fs !! (Permanent, name) = Some (File c2 m2) ->
  exists fs1 fs2,
    delete_audio h fs name = Ok (fs1, true)
    /\ fs1 !! (Permanent, name) = Some (File c2 m2)
    /\ get_audio h fs1 name = Ok (Some c2)
    /\ delete_audio h fs1 name = Ok (fs2, true)
    /\ get_audio h fs2 name = Ok None
    /\ delete_audio h fs2 name = Ok (fs2, false).
Proof.
  intros Ht Hp.
  exists (delete (Temp, name) fs), (delete (Permanent, name) (delete (Temp, name) fs)).
  assert (delete (Temp, name) fs !! (Temp, name) = None) as Ht1
    by apply lookup_delete_eq.
  assert (delete (Temp, name) fs !! (Permanent, name) = Some (File c2 m2)) as Hp1
    by (by rewrite lookup_delete_ne).
  assert (delete (Permanent, name) (delete (Temp, name) fs) !! (Temp, name) = None)
    as Ht2 by (by rewrite lookup_delete_ne).
  assert (delete (Permanent, name) (delete (Temp, name) fs) !! (Permanent, name)
          = None) as Hp2 by apply lookup_delete_eq.
  split; [by apply (delete_audio_temp _ _ _ c1 m1)|].
  split; [done|].
  split; [by rewrite get_audio_permanent, Hp1|].
  split.
  { unfold delete_audio. cbn [delete_audio_in]. by rewrite Ht1, Hp1. }
  split; [by rewrite get_audio_permanent, Hp2|].
  unfold delete_audio. cbn [delete_audio_in]. by rewrite Ht2, Hp2.
Qed.

Lemma delete_audio_twice_witness :
  exists fs1 fs2,
    delete_audio Sample.handler SampleFiles.twins "clip.wav" = Ok (fs1, true)
    /\ fs1 !! (Permanent, "clip.wav") = Some (File [x03] 7)
    /\ get_audio Sample.handler fs1 "clip.wav" = Ok (Some [x03])
    /\ delete_audio Sample.handler fs1 "clip.wav" = Ok (fs2, true)
    /\ get_audio Sample.handler fs2 "clip.wav" = Ok None
    /\ delete_audio Sample.handler fs2 "clip.wav" = Ok (fs2, false).
Proof.
  apply (delete_audio_twice Sample.handler SampleFiles.twins "clip.wav"
           [x01; x02] 5 [x03] 7); vm_compute; reflexivity.
Defined.

(** X4. Saving a clip in the temp directory under a name the disk does not
    have, then deleting it by the filename of the metadata, gives back the
    disk as it was. *)
Theorem save_then_delete_restores h fs now unique_id data filename format
    fs' md :
  save_audio h fs now unique_id data filename false format = Ok (fs', md) ->
  fs !! (Temp, AudioStore.filename md) = None ->
  delete_audio h fs' (AudioStore.filename md) = Ok (fs, true).
Proof.
  intros Hsave Hnew.
  destruct (save_audio_inv _ _ _ _ _ _ _ _ _ _ Hsave)
    as (_ & _ & -> & Hname & _ & _).
  rewrite Hname in *. cbn [target_dir].
  rewrite (delete_audio_temp _ _ _ data now) by apply lookup_insert_eq.
  by rewrite delete_insert_id.
Qed.

Lemma save_then_delete_restores_witness :
  exists fs' md,
    save_audio Sample.handler SampleFiles.twins 11 "1b4e28ba" Sample.clip None
      false "wav" = Ok (fs', md)
    /\ delete_audio Sample.handler fs' (AudioStore.filename md)
       = Ok (SampleFiles.twins, true).
Proof.
  eexists _, _. split; [reflexivity|].
  apply (save_then_delete_restores Sample.handler SampleFiles.twins 11
           "1b4e28ba" Sample.clip None "wav" _ _ eq_refl).
  vm_compute. reflexivity.
Defined.

End AudioStoreMore.

(** ** More about the retention sweeper *)

Section SweeperMore.

Import AudioStore.

Implicit Types (fs : disk) (name : string).

Lemma sweep_temp_files_dir fs cutoff name :
  fs !! (Temp, name) = Some Dir ->
  (sweep_temp_files fs cutoff).1 !! (Temp, name) = Some Dir.
Proof.
  intros Hl. unfold sweep_temp_files.
  assert ((fold_left (sweep cutoff) (glob fs Temp ".wav") (fs, 0)).1
            !! (Temp, name) = Some Dir) as Hst.
  { rewrite fold_sweep_keep; simpl; by rewrite Hl. }
  rewrite fold_sweep_keep; by rewrite Hst.
Qed.

Lemma cleanup_temp_files_dir fs now max_age_hours name :
  fs !! (Temp, name) = Some Dir ->
  (cleanup_temp_files fs now max_age_hours).1 !! (Temp, name) = Some Dir.
Proof.
  intros Hl.
  destruct (cleanup_temp_files_disk fs now max_age_hours) as [->|[cutoff ->]];
    [done|].
  by apply sweep_temp_files_dir.
Qed.

(** The disk the loops of [cleanup_temp_files] leave, path by path. *)
Lemma sweep_temp_files_lookup_all fs cutoff k :
  (sweep_temp_files fs cutoff).1 !! k
  = match fs !! k with
    | Some e => if doomed cutoff (k, e) then None else Some e
    | None => None
    end.
Proof.
  destruct k as [[|] name]; unfold doomed; cbn [fst snd].
  - destruct (fs !! (Temp, name)) as [[content mtime|]|] eqn:Hl.
    + destruct (swept_name name) eqn:Hs; cbn [andb].
      * rewrite (sweep_temp_files_lookup _ _ _ content mtime Hl Hs).
        by rewrite expired_file.
      * by rewrite sweep_temp_files_other_names.
    + rewrite (sweep_temp_files_dir _ _ _ Hl).
      by rewrite andb_false_r.
    + eapply lookup_weaken_None; [exact Hl|apply sweep_temp_files_subseteq].
  - unfold sweep_temp_files. rewrite !fold_sweep_permanent. cbn [fst].
    by destruct (fs !! (Permanent, name)).
Qed.

Lemma sweep_temp_files_filter fs cutoff :
  (sweep_temp_files fs cutoff).1
  = filter (fun kv => doomed cutoff kv = false) fs.
Proof.
  apply map_eq. intros k.
  rewrite sweep_temp_files_lookup_all, map_lookup_filter.
  destruct (fs !! k) as [e|]; [|done]. cbn.
  destruct (doomed cutoff (k, e)) eqn:Hd.
  - by rewrite option_guard_False.
  - by rewrite option_guard_True.
Qed.

(** X5. Where the cutoff can be computed, the count [cleanup_temp_files]
    returns is the number of regular files of the temp directory whose name
    ends in [.wav] or [.mp3] and whose last modification is older than
    [max_age_hours]; the disk it leaves is the disk without these. *)
Theorem cleanup_temp_files_counts_doomed fs now max_age_hours :
  cutoff_in_range now max_age_hours ->
  cleanup_temp_files fs now max_age_hours
  = (filter (fun kv => doomed (now - hours max_age_hours) kv = false) fs,
     Ok (Z.of_nat
           (size (filter
                    (fun kv => doomed (now - hours max_age_hours) kv = true)
                    fs)))).
Proof.
  intros Hrange. rewrite (cleanup_temp_files_in_range _ _ _ Hrange).
  set (cutoff := now - hours max_age_hours).
  pose proof (sweep_temp_files_count fs cutoff) as Hcount.
  rewrite sweep_temp_files_filter in *.
  assert (size fs
          = (size (filter (fun kv => doomed cutoff kv = true) fs)
             + size (filter (fun kv => doomed cutoff kv = false) fs))%nat)
    as Hsplit.
  { assert (filter (fun kv => doomed cutoff kv = false) fs
            = filter (fun kv => ~ doomed cutoff kv = true) fs) as ->.
    { apply map_filter_ext. intros k e _. by destruct (doomed cutoff (k, e)). }
    rewrite <- map_size_disj_union
      by apply map_disjoint_filter_complement.
    by rewrite map_filter_union_complement. }
  do 2 f_equal. lia.
Qed.

Lemma cleanup_temp_files_counts_doomed_witness :
  cleanup_temp_files Sample.shelf Sample.ten_am 1
  = (filter (fun kv => doomed (Sample.ten_am - hours 1) kv = false) Sample.shelf,
     Ok (Z.of_nat
           (size (filter
                    (fun kv => doomed (Sample.ten_am - hours 1) kv = true)
                    Sample.shelf)))).
Proof.
  apply (cleanup_temp_files_counts_doomed Sample.shelf Sample.ten_am 1).
  vm_compute. intuition discriminate.
Defined.

(** X6. Where the cutoff can be computed, running [cleanup_temp_files]
    again, at the same time and with the same [max_age_hours], deletes
    nothing more: the count is 0 and the disk stays. *)
Theorem cleanup_temp_files_idempotent fs now max_age_hours :
  cutoff_in_range now max_age_hours ->
  cleanup_temp_files (cleanup_temp_files fs now max_age_hours).1 now
    max_age_hours
  = ((cleanup_temp_files fs now max_age_hours).1, Ok 0).
Proof.
  intros Hrange. rewrite !(cleanup_temp_files_in_range _ _ _ Hrange).
  cbn [fst]. set (cutoff := now - hours max_age_hours).
  set (after := (sweep_temp_files fs cutoff).1).
  assert ((sweep_temp_files after cutoff).1 = after) as Hsame.
  { apply map_eq. intros k. rewrite sweep_temp_files_lookup_all.
    destruct (after !! k) as [e|] eqn:Hk; [|done].
    unfold after in Hk. rewrite sweep_temp_files_lookup_all in Hk.
    destruct (fs !! k) as [e'|]; [|done].
    destruct (doomed _ (k, e')) eqn:Hd; [done|].
    injection Hk as <-. by rewrite Hd. }
  pose proof (sweep_temp_files_count after cutoff) as Hcount.
  rewrite Hsame in Hcount. rewrite Hsame.
  do 2 f_equal. lia.
Qed.

Lemma cleanup_temp_files_idempotent_witness :
  cleanup_temp_files (cleanup_temp_files Sample.shelf Sample.ten_am 1).1
    Sample.ten_am 1
  = ((cleanup_temp_files Sample.shelf Sample.ten_am 1).1, Ok 0).
Proof.
  apply (cleanup_temp_files_idempotent Sample.shelf Sample.ten_am 1).
  vm_compute. intuition discriminate.
Defined.

(** X7. Whatever their age, [cleanup_temp_files] keeps the entries of the
    temp directory that are directories and those whose name ends in
    neither [.wav] nor [.mp3], [.ogg] files among them. *)
Theorem cleanup_temp_files_spares fs now max_age_hours name e :
  fs !! (Temp, name) = Some e ->
  e = Dir \/ swept_name name = false ->
  (cleanup_temp_files fs now max_age_hours).1 !! (Temp, name) = Some e.
Proof.
  intros Hl [->|Hs].
  - by apply cleanup_temp_files_dir.
  - by rewrite cleanup_temp_files_other_names.
Qed.

Lemma cleanup_temp_files_spares_witness :
  (cleanup_temp_files Sample.shelf Sample.ten_am 1).1 !! (Temp, "old.ogg")
  = Some (File Sample.clip 0)
  /\ (cleanup_temp_files Sample.shelf Sample.ten_am 1).1 !! (Temp, "dir.wav")
     = Some Dir.
Proof.
  split.
  - apply (cleanup_temp_files_spares Sample.shelf Sample.ten_am 1 "old.ogg").
    + vm_compute. reflexivity.
    + right. reflexivity.
  - apply (cleanup_temp_files_spares Sample.shelf Sample.ten_am 1 "dir.wav").
    + vm_compute. reflexivity.
    + left. reflexivity.
Defined.

End SweeperMore.

(** ** The listing of audio files *)

Section ListingFacts.

Import AudioStore.

Implicit Types (fs : disk) (name : string) (files : list Listed).

Lemma insert_newest_first_perm x files :
  insert_newest_first x files ≡ₚ x :: files.
Proof.
  induction files as [|y files IH]; [done|].
  cbn [insert_newest_first].
  destruct (String.ltb _ _); [|done].
  rewrite IH. apply Permutation_swap.
Qed.

Lemma sorted_newest_first_perm files : sorted_newest_first files ≡ₚ files.
Proof.
  induction files as [|x files IH]; [done|].
  cbn [sorted_newest_first fold_right].
  fold (sorted_newest_first files).
  by rewrite insert_newest_first_perm, IH.
Qed.

Lemma insert_newest_first_sorted x files :
  Sorted not_older files -> Sorted not_older (insert_newest_first x files).
Proof.
  induction files as [|y files IH]; intros Hs; cbn [insert_newest_first].
  - by repeat constructor.
  - destruct (String.ltb (listed_created_at x) (listed_created_at y)) eqn:Hxy.
    + apply Sorted_inv in Hs as [Hs Hhd].
      constructor; [by apply IH|].
      destruct files as [|z files]; cbn [insert_newest_first].
      * constructor. unfold not_older.
        unfold String.ltb in *.
        rewrite String.compare_antisym.
        destruct (String.compare (listed_created_at x) (listed_created_at y));
          simplify_eq/=; done.
      * destruct (String.ltb (listed_created_at x) (listed_created_at z)).
        -- constructor. by apply HdRel_inv in Hhd.
        -- constructor. unfold not_older.
           unfold String.ltb in *.
           rewrite String.compare_antisym.
           destruct (String.compare (listed_created_at x) (listed_created_at y));
             simplify_eq/=; done.
    + constructor; [done|]. by constructor.
Qed.

Lemma sorted_newest_first_sorted files :
  Sorted not_older (sorted_newest_first files).
Proof.
  induction files as [|x files IH]; [constructor|].
  cbn [sorted_newest_first fold_right]. by apply insert_newest_first_sorted.
Qed.

Lemma rfind_contains c s i :
  PyStr.rfind c s = Some i ->
  PyStr.contains (String c EmptyString) s = true.
Proof.
  revert i. induction s as [|a s IH]; intros i; [done|].
  cbn [PyStr.rfind PyStr.contains].
  destruct (PyStr.rfind c s) as [j|] eqn:Hr.
  - intros _. rewrite (IH j eq_refl). apply orb_true_r.
  - destruct (Ascii.eqb_spec a c) as [->|]; [|done].
    intros _. cbn [String.prefix].
    destruct (ascii_dec c c); [|done]. by destruct s.
Qed.

Lemma has_audio_suffix_dot name :
  has_audio_suffix name = true -> PyStr.contains "." name = true.
Proof.
  unfold has_audio_suffix, suffix.
  destruct (PyStr.rfind "." name) as [i|] eqn:Hr; [|done].
  intros _. by apply (rfind_contains _ _ i).
Qed.

Lemma elem_of_listed_in h stat fs d x :
  x ∈ listed_in h stat fs d
  <-> exists name,
        is_Some (fs !! (d, name)) /\ has_audio_suffix name = true
        /\ x = item h stat fs d name.
Proof.
  unfold listed_in. rewrite list_elem_of_fmap. split.
  - intros (name & -> & Hin).
    apply list_elem_of_In, filter_In in Hin as [Hin Hsuf].
    apply filter_In in Hin as [Hin _].
    apply list_elem_of_In, elem_of_listdir in Hin.
    by exists name.
  - intros (name & Hsome & Hsuf & ->). exists name. split; [done|].
    apply list_elem_of_In, filter_In. split; [|done].
    apply filter_In. split; [|by apply has_audio_suffix_dot].
    by apply list_elem_of_In, elem_of_listdir.
Qed.

(** X8. With [permanent_only=True], every item of [list_audio_files] is
    an entry of the permanent directory with an audio suffix, flagged
    permanent and with a path in that directory; no item comes from the
    temp directory. *)
Theorem list_audio_files_permanent_only h stat fs x :
  x ∈ list_audio_files h stat fs true ->
  listed_permanent x = true
  /\ is_Some (fs !! (Permanent, listed_filename x))
  /\ has_audio_suffix (listed_filename x) = true
  /\ listed_path x = path_str h Permanent (listed_filename x).
Proof.
  unfold list_audio_files. rewrite sorted_newest_first_perm.
  cbn [map concat]. rewrite app_nil_r.
  intros (name & Hsome & Hsuf & ->)%elem_of_listed_in.
  by cbn.
Qed.

Lemma list_audio_files_permanent_only_witness :
  listed_permanent (item Sample.handler SampleFiles.stat SampleFiles.twins
                      Permanent "talk.OGG") = true
  /\ is_Some (SampleFiles.twins !! (Permanent, "talk.OGG")).
Proof.
  destruct (list_audio_files_permanent_only Sample.handler SampleFiles.stat
              SampleFiles.twins
              (item Sample.handler SampleFiles.stat SampleFiles.twins
                 Permanent "talk.OGG")) as (Hp & Hs & _).
  - vm_compute. apply list_elem_of_In. right. left. reflexivity.
  - split; [exact Hp|exact Hs].
Defined.

Lemma listdir_NoDup fs d : NoDup (listdir fs d).
Proof.
  unfold listdir. pose proof (NoDup_fst_map_to_list fs) as Hkeys.
  induction (map_to_list fs) as [|[[d' n] e] l IH]; [constructor|].
  cbn [fmap list_fmap fst] in Hkeys. apply NoDup_cons in Hkeys as [Hnew Hkeys].
  cbn [omap list_omap fst snd].
  destruct (decide (d' = d)) as [->|]; [|by apply IH].
  apply NoDup_cons. split; [|by apply IH].
  intros ([[d'' n'] e'] & Hin & Hf)%list_elem_of_omap. cbn [fst snd] in Hf.
  destruct (decide (d'' = d)) as [->|]; [|done]. injection Hf as ->.
  apply Hnew, list_elem_of_fmap. by exists (d, n, e').
Qed.

Lemma NoDup_filter_bool {A} (f : A -> bool) (l : list A) :
  NoDup l -> NoDup (List.filter f l).
Proof.
  induction 1 as [|x l Hx Hl IH]; cbn [List.filter]; [constructor|].
  destruct (f x); [|done].
  constructor; [|done].
  intros [Hin _]%list_elem_of_In%List.filter_In. by apply Hx, list_elem_of_In.
Qed.

Lemma listed_in_NoDup h stat fs d : NoDup (listed_in h stat fs d).
Proof.
  unfold listed_in. apply NoDup_fmap_2_strong.
  - intros x y _ _ Heq. by injection Heq.
  - apply NoDup_filter_bool, NoDup_filter_bool, listdir_NoDup.
Qed.

(** X9. Without [permanent_only], [list_audio_files] lists the entries of
    both directories whose suffix, in lower case, is [.wav], [.mp3] or
    [.ogg], and nothing else; no item comes twice and the items of two
    entries differ, so that a name is listed once for each directory that
    has it. *)
Theorem list_audio_files_all h stat fs :
  NoDup (list_audio_files h stat fs false)
  /\ (forall x,
       x ∈ list_audio_files h stat fs false
       <-> exists d name,
             is_Some (fs !! (d, name)) /\ has_audio_suffix name = true
             /\ x = item h stat fs d name)
  /\ forall d name d' name',
       item h stat fs d name = item h stat fs d' name'
       <-> d = d' /\ name = name'.
Proof.
  unfold list_audio_files. cbn [map concat]. rewrite app_nil_r.
  split; [|split].
  - rewrite sorted_newest_first_perm. apply NoDup_app.
    split; [apply listed_in_NoDup|]. split; [|apply listed_in_NoDup].
    intros x (n & _ & _ & ->)%elem_of_listed_in
             (n' & _ & _ & Heq)%elem_of_listed_in.
    discriminate Heq.
  - intros x.
    rewrite sorted_newest_first_perm, elem_of_app, !elem_of_listed_in.
    split.
    + intros [(name & H)|(name & H)]; eauto.
    + intros ([|] & name & H); eauto.
  - intros d name d' name'. split; [|by intros [-> ->]].
    intros Heq. injection Heq as -> _ _ _ Hd.
    by destruct d, d'.
Qed.

(** X10. The items of [list_audio_files] are in order of their creation
    times as printed, newest first: none is older than the next. *)
Theorem list_audio_files_newest_first h stat fs permanent_only :
  Sorted not_older (list_audio_files h stat fs permanent_only).
Proof. apply sorted_newest_first_sorted. Qed.

(** The listing of the sample: the upper-case suffix counts, the text file
    does not, and the name both directories hold comes twice. *)
Example list_audio_files_sample :
  map (fun x => (listed_filename x, listed_permanent x))
      (list_audio_files Sample.handler SampleFiles.stat SampleFiles.twins false)
  = [("clip.wav", true); ("clip.wav", false); ("talk.OGG", true)].
Proof. vm_compute. reflexivity. Qed.

End ListingFacts.

(** ** The audio routes *)

Section AudioRouteFacts.

Import AudioStore AudioRoutes.

Implicit Types (fs : disk) (name : string).

Lemma length_append (s t : string) :
  String.length (s ++ t) = (String.length s + String.length t)%nat.
Proof.
  induction s as [|c s IH]; [done|].
  change (String c s ++ t) with (String c (s ++ t)).
  cbn [String.length]. by rewrite IH.
Qed.

Lemma append_same_length_inj (p q a b : string) :
  p ++ a = q ++ b -> String.length a = String.length b -> a = b.
Proof.
  revert q. induction p as [|c p IH]; intros [|c' q] Heq Hlen.
  - done.
  - apply (f_equal String.length) in Heq.
    change ("" ++ a) with a in Heq.
    change (String c' q ++ b) with (String c' (q ++ b)) in Heq.
    cbn [String.length] in Heq. rewrite length_append in Heq. lia.
  - apply (f_equal String.length) in Heq.
    change ("" ++ b) with b in Heq.
    change (String c p ++ a) with (String c (p ++ a)) in Heq.
    cbn [String.length] in Heq. rewrite length_append in Heq. lia.
  - injection Heq as _ Heq. by apply (IH q).
Qed.

Lemma endswith_same_length (p a b : string) :
  String.length a = String.length b ->
  PyStr.endswith (p ++ a) b = String.eqb a b.
Proof.
  intros Hlen. destruct (String.eqb_spec a b) as [->|Hne].
  - apply endswith_app.
  - destruct (PyStr.endswith (p ++ a) b) eqn:He; [|done].
    apply endswith_spec in He as [q Hq].
    exfalso. apply Hne. by apply (append_same_length_inj p q).
Qed.

Lemma stored_name_endswith unique_id filename format :
  PyStr.endswith (stored_name unique_id filename format) ("." ++ format) = true.
Proof.
  unfold stored_name.
  destruct filename as [name|].
  - destruct (String.eqb name "").
    + apply (endswith_app ("audio_" ++ unique_id) ("." ++ format)).
    + destruct (PyStr.endswith name ("." ++ format)) eqn:He; cbn [negb].
      * done.
      * apply (endswith_app name ("." ++ format)).
  - apply (endswith_app ("audio_" ++ unique_id) ("." ++ format)).
Qed.

(** X11. A clip saved in the temp directory is served by
    [GET /api/audio/<filename>] under the filename of its metadata: the
    answer is the stream of the saved bytes, and for the formats wav, mp3
    and ogg its MIME type is audio/wav, audio/mpeg and audio/ogg. *)
Theorem get_audio_file_serves_saved h fs now unique_id data filename format
    fs' md :
  save_audio h fs now unique_id data filename false format = Ok (fs', md) ->
  get_audio_file h fs' (AudioStore.filename md)
  = FileResponse data (mimetype_of (AudioStore.filename md))
      (AudioStore.filename md)
  /\ (format = "wav" -> mimetype_of (AudioStore.filename md) = "audio/wav")
  /\ (format = "mp3" -> mimetype_of (AudioStore.filename md) = "audio/mpeg")
  /\ (format = "ogg" -> mimetype_of (AudioStore.filename md) = "audio/ogg").
Proof.
  intros Hsave.
  destruct (save_audio_inv _ _ _ _ _ _ _ _ _ _ Hsave)
    as (_ & _ & -> & Hname & _ & _).
  rewrite Hname. cbn [target_dir].
  pose proof (stored_name_endswith unique_id filename format) as Hend.
  set (name := stored_name unique_id filename format) in *.
  split.
  - unfold get_audio_file.
    by rewrite (get_audio_temp _ _ _ data now) by apply lookup_insert_eq.
  - apply endswith_spec in Hend as [p Hp].
    unfold mimetype_of. rewrite Hp.
    repeat split; intros ->;
      rewrite !(endswith_same_length p) by reflexivity; reflexivity.
Qed.

Lemma get_audio_file_serves_saved_witness :
  exists fs' md,
    save_audio Sample.handler SampleFiles.twins 11 "1b4e28ba" Sample.clip
      (Some "story_ab12") false "mp3" = Ok (fs', md)
    /\ get_audio_file Sample.handler fs' "story_ab12.mp3"
       = FileResponse Sample.clip "audio/mpeg" "story_ab12.mp3".
Proof.
  eexists _, _. split; [reflexivity|].
  destruct (get_audio_file_serves_saved Sample.handler SampleFiles.twins 11
              "1b4e28ba" Sample.clip (Some "story_ab12") "mp3" _ _ eq_refl)
    as (Hget & _ & Hmp3 & _).
  rewrite (Hmp3 eq_refl) in Hget. exact Hget.
Defined.

(** [GET /api/audio/<filename>] answers 404 exactly when neither
    directory has an entry of that name. *)
Theorem get_audio_file_not_found h fs name :
  get_audio_file h fs name
  = JsonResponse (JObj [("error", JStr "Audio file not found");
                        ("filename", JStr name)]) 404
  <-> fs !! (Temp, name) = None /\ fs !! (Permanent, name) = None.
Proof.
  unfold get_audio_file, get_audio. cbn [get_audio_in].
  destruct (fs !! (Temp, name)) as [[c m|]|];
    destruct (fs !! (Permanent, name)) as [[c' m'|]|];
    (split; [intros H; try discriminate H; done
           |intros [H1 H2]; try discriminate H1; try discriminate H2; done]).
Qed.

Lemma get_audio_file_not_found_witness :
  get_audio_file Sample.handler SampleFiles.twins "missing.wav"
  = JsonResponse (JObj [("error", JStr "Audio file not found");
                        ("filename", JStr "missing.wav")]) 404.
Proof.
  apply (get_audio_file_not_found Sample.handler SampleFiles.twins "missing.wav").
  split; vm_compute; reflexivity.
Defined.



End AudioRouteFacts.

(** ** More about the generation gateway *)

Section GatewayMore.

Import Gateway.

Lemma quiet_ret {A} (a : A) : quiet (ret a).
Proof. by intros w. Qed.

Lemma quiet_raise {A} e : quiet (@raise A e).
Proof. by intros w. Qed.

Lemma quiet_lift {A} (r : result A) : quiet (lift r).
Proof. by intros w. Qed.

Lemma quiet_bind {A B} (m : M A) (k : A -> M B) :
  quiet m -> (forall a, quiet (k a)) -> quiet (bind m k).
Proof.
  intros Hm Hk w. unfold bind. specialize (Hm w).
  destruct (m w) as [[a|e] w']; cbn in *; subst; [apply Hk|done].
Qed.

(** A request, then quiet code, handled by quiet code: one request. *)
Lemma one_request {A} E r (k : response -> M A) (handler : exn -> M A) w :
  (forall resp, quiet (k resp)) -> (forall e, quiet (handler e)) ->
  (try_except (bind (requests_post E r) k) handler w).2 = after_request w r.
Proof.
  intros Hk Hh. unfold try_except, bind, requests_post.
  destruct (endpoint E r) as [reason|resp].
  - apply Hh.
  - specialize (Hk resp (after_request w r)).
    unfold after_request in *.
    destruct (k resp _) as [[a|e] w']; cbn in *; subst; [done|apply Hh].
Qed.

(** X13. Whatever the endpoint does, [generate_story] and
    [generate_schedule] each send exactly one request, the one to
    [<endpoint>/generate] with a timeout of 30, and write no file: nothing
    is tried a second time. *)
Theorem gateway_sends_one_request self E w :
  (forall context,
      (generate_story self E context w).2
      = after_request w (story_request self context))
  /\ (forall tasks user_profile,
         (generate_schedule self E tasks user_profile w).2
         = after_request w (schedule_request self tasks user_profile))
  /\ (forall context, req_timeout (story_request self context) = 30
                      /\ req_url (story_request self context)
                         = model_endpoint self ++ "/generate").
Proof.
  split; [|split; [|done]].
  - intros context. apply one_request.
    + intros resp. destruct (status_code resp =? 200)%Z; [|apply quiet_raise].
      repeat (apply quiet_bind; [apply quiet_lift|intros ?]).
      apply quiet_bind; [|intros ?; apply quiet_ret].
      destruct (Py.truthy _); [|apply quiet_ret].
      match goal with |- quiet (match ?v with _ => _ end) => destruct v end;
        try apply quiet_ret.
      apply quiet_bind; [apply quiet_lift|intros ?; apply quiet_ret].
    + intros e. destruct (is_request_exception e);
        [apply quiet_ret|apply quiet_raise].
  - intros tasks user_profile. apply one_request.
    + intros resp. destruct (status_code resp =? 200)%Z; [|apply quiet_raise].
      repeat (apply quiet_bind; [apply quiet_lift|intros ?]).
      apply quiet_ret.
    + intros e. destruct (is_request_exception e);
        [apply quiet_lift|apply quiet_raise].
Qed.

(** When the endpoint answers a schedule request with a status other
    than 200, [generate_schedule] raises, naming the status, and does not
    fall back. *)
Theorem generate_schedule_http_error self E tasks user_profile w status payload :
  endpoint E (schedule_request self tasks user_profile)
  = Replied {| status_code := status; body := payload |} ->
  status <> 200 ->
  generate_schedule self E tasks user_profile w
  = (Raise (MkExn Exception
              ("Failed to generate schedule: Model API returned status "
               ++ PyStr.of_int status)),
     after_request w (schedule_request self tasks user_profile)).
Proof.
  intros Hnet Hstatus.
  unfold generate_schedule, try_except, bind, requests_post.
  rewrite Hnet. cbn [status_code]. by rewrite of_int_200.
Qed.

Lemma generate_schedule_http_error_witness :
  generate_schedule SampleNet.service SampleNet.overloaded
    [JStr "Ice Pack"] JNull SampleNet.quiet
  = (Raise (MkExn Exception
              "Failed to generate schedule: Model API returned status 503"),
     after_request SampleNet.quiet
       (schedule_request SampleNet.service [JStr "Ice Pack"] JNull)).
Proof.
  apply (generate_schedule_http_error SampleNet.service SampleNet.overloaded
           [JStr "Ice Pack"] JNull SampleNet.quiet 503 None eq_refl).
  discriminate.
Defined.

Lemma validate_well_formed items :
  Forall well_formed_entry items -> validate items = Ok tt.
Proof.
  induction 1 as [|item items (fields & -> & Htime & Htask) _ IH]; [done|].
  cbn [validate Py.contains].
  by rewrite !bool_decide_eq_true_2.
Qed.

(** X14. When the endpoint answers with status 200 and a schedule that is
    a list of records, each with a [time] and a [task], [generate_schedule]
    returns that schedule as it came, with the metadata and the confidence
    of the reply, or [{}] and [0.0] in their absence. *)
Theorem generate_schedule_passes_valid self E tasks user_profile w reply items :
  endpoint E (schedule_request self tasks user_profile)
  = Replied {| status_code := 200; body := Some (JObj reply) |} ->
  Py.assoc "schedule" reply = Some (JArr items) ->
  Forall well_formed_entry items ->
  generate_schedule self E tasks user_profile w
  = (Ok {| schedule := JArr items;
           metadata := default (JObj []) (Py.assoc "metadata" reply);
           confidence := default (JNum 0) (Py.assoc "confidence" reply) |},
     after_request w (schedule_request self tasks user_profile)).
Proof.
  intros Hnet Hsched Hvalid.
  unfold generate_schedule, try_except, bind, requests_post, lift.
  rewrite Hnet. cbn. rewrite Hsched. cbn.
  by rewrite (validate_well_formed items Hvalid).
Qed.

Lemma generate_schedule_passes_valid_witness :
  generate_schedule SampleNet.service SampleReplies.planned
    [JStr "Ice Pack"; JStr "Walk"] JNull SampleNet.quiet
  = (Ok {| schedule := JArr [slot "9:00 AM" (JStr "Ice Pack");
                             slot "2:00 PM" (JStr "Walk")];
           metadata := JObj [];
           confidence := JNum (9 # 10) |},
     after_request SampleNet.quiet
       (schedule_request SampleNet.service [JStr "Ice Pack"; JStr "Walk"] JNull)).
Proof.
  apply (generate_schedule_passes_valid SampleNet.service SampleReplies.planned
           [JStr "Ice Pack"; JStr "Walk"] JNull SampleNet.quiet
           [("schedule", JArr [slot "9:00 AM" (JStr "Ice Pack");
                               slot "2:00 PM" (JStr "Walk")]);
            ("confidence", JNum (9 # 10))]
           [slot "9:00 AM" (JStr "Ice Pack"); slot "2:00 PM" (JStr "Walk")]
           eq_refl eq_refl).
  repeat constructor; eexists; (split; [reflexivity|split; by eexists]).
Defined.

Lemma plan_well_formed names current_hour :
  Forall well_formed_entry (plan names current_hour).
Proof.
  revert current_hour.
  induction names as [|name names IH]; intros current_hour; [constructor|].
  cbn [plan].
  assert (forall t, well_formed_entry (slot t (JStr name))) as Hslot.
  { intros t. eexists. split; [reflexivity|]. split; by eexists. }
  destruct (is_posture name); [|destruct (is_walk name)].
  - cbn [map app]. repeat (constructor; [apply Hslot|]). apply IH.
  - constructor; [apply Hslot|apply IH].
  - constructor; [apply Hslot|apply IH].
Qed.

Lemma plan_length names current_hour :
  List.length (plan names current_hour)
  = (3 * List.length (List.filter is_posture names)
     + List.length (List.filter (fun name => negb (is_posture name)) names))%nat.
Proof.
  revert current_hour.
  induction names as [|name names IH]; intros current_hour; [done|].
  cbn [plan List.filter].
  destruct (is_posture name); cbn [negb].
  - cbn [map app List.length]. rewrite IH. lia.
  - destruct (is_walk name); cbn [List.length]; rewrite IH; lia.
Qed.

(** X15. For every list of task names the fallback schedule is well formed
    by the test a remote schedule has to pass: all its entries are records
    with a [time] and a [task]. It has three entries for each posture task
    and one for each other task. *)
Theorem fallback_schedule_well_formed (names : list string) :
  exists entries,
    _generate_fallback_schedule (map JStr names)
    = Ok {| schedule := JArr entries;
            metadata := JObj [("source", JStr "fallback")];
            confidence := JNum (1 # 2) |}
    /\ validate entries = Ok tt
    /\ Forall well_formed_entry entries
    /\ List.length entries
       = (3 * List.length (List.filter is_posture names)
          + List.length (List.filter (fun name => negb (is_posture name)) names))%nat.
Proof.
  exists (plan names 11).
  unfold _generate_fallback_schedule. rewrite fallback_loop_plan.
  split; [done|]. split; [|split].
  - apply validate_well_formed, plan_well_formed.
  - apply plan_well_formed.
  - apply plan_length.
Qed.

Lemma fallback_loop_not_str tasks schedule current_hour :
  Exists (fun task => forall name, task <> JStr name) tasks ->
  exists msg,
    fallback_loop tasks schedule current_hour
    = Raise (MkExn AttributeError msg).
Proof.
  intros Hex. revert schedule current_hour.
  induction Hex as [task tasks Hbad|task tasks _ IH]; intros schedule current_hour.
  - cbn [fallback_loop].
    destruct task; try (by eexists). by destruct (Hbad s).
  - cbn [fallback_loop].
    destruct (task_lower task) as [lowered|e] eqn:Hl.
    + destruct (PyStr.contains "posture" lowered); [apply IH|].
      destruct (PyStr.contains "walk" lowered); apply IH.
    + destruct task; simplify_eq/=; by eexists.
Qed.

(** X16. Without a reply from the endpoint, a task that is not a string
    makes [generate_schedule] raise an [AttributeError]: the error comes out
    of the fallback as it is, not as the [Exception] with the text "Failed
    to generate schedule" the other failures are turned into. *)
Theorem generate_schedule_fallback_not_str self E tasks user_profile w reason :
  endpoint E (schedule_request self tasks user_profile) = Unreachable reason ->
  Exists (fun task => forall name, task <> JStr name) tasks ->
  exists msg,
    generate_schedule self E tasks user_profile w
    = (Raise (MkExn AttributeError msg),
       after_request w (schedule_request self tasks user_profile)).
Proof.
  intros Hnet Hbad.
  rewrite (generate_schedule_falls_back _ _ _ _ _ _ Hnet).
  unfold _generate_fallback_schedule.
  destruct (fallback_loop_not_str tasks [] 11 Hbad) as [msg ->].
  by exists msg.
Qed.

Lemma generate_schedule_fallback_not_str_witness :
  exists msg,
    generate_schedule SampleNet.service SampleNet.offline
      [JStr "Ice Pack"; JNum 3] JNull SampleNet.quiet
    = (Raise (MkExn AttributeError msg),
       after_request SampleNet.quiet
         (schedule_request SampleNet.service [JStr "Ice Pack"; JNum 3] JNull)).
Proof.
  apply (generate_schedule_fallback_not_str SampleNet.service SampleNet.offline
           [JStr "Ice Pack"; JNum 3] JNull SampleNet.quiet "Connection refused"
           eq_refl).
  apply Exists_cons_tl, Exists_cons_hd. discriminate.
Defined.

(** X17. On a reply with status 200, [generate_story] returns the [text] of
    the reply; with it, no audio when the reply has none, and the decoded
    bytes when the audio is a non-empty string the base-64 decoder accepts.
    When the decoder rejects the string, [generate_story] raises and does
    not fall back. *)
Theorem generate_story_success self E context w reply :
  endpoint E (story_request self context)
  = Replied {| status_code := 200; body := Some (JObj reply) |} ->
  let story_text := default (JStr "") (Py.assoc "text" reply) in
  let w' := after_request w (story_request self context) in
  (Py.assoc "audio" reply = None ->
   generate_story self E context w = (Ok (story_text, None), w'))
  /\ (forall encoded decoded,
         Py.assoc "audio" reply = Some (JStr encoded) -> encoded <> "" ->
         b64decode E encoded = Ok decoded ->
         generate_story self E context w
         = (Ok (story_text, Some (AudioBytes decoded)), w'))
  /\ (forall encoded e,
         Py.assoc "audio" reply = Some (JStr encoded) -> encoded <> "" ->
         b64decode E encoded = Raise e -> is_request_exception e = false ->
         generate_story self E context w
         = (Raise (MkExn Exception ("Failed to generate story: " ++ str_exn e)),
            w')).
Proof.
  intros Hnet story_text w'.
  unfold generate_story, try_except, bind, requests_post, lift.
  rewrite Hnet. cbn.
  split; [|split].
  - by intros ->.
  - intros encoded decoded -> Hne Hdec. cbn.
    destruct (String.eqb_spec encoded "") as [|_]; [done|]. cbn.
    by rewrite Hdec.
  - intros encoded e -> Hne Hdec Hcls. cbn.
    destruct (String.eqb_spec encoded "") as [|_]; [done|]. cbn.
    by rewrite Hdec, Hcls.
Qed.

Lemma generate_story_success_witness :
  generate_story SampleNet.service SampleReplies.spoken SampleNet.context
    SampleNet.quiet
  = (Ok (JStr "One step at a time.", Some (AudioBytes [x52; x49; x46; x46])),
     after_request SampleNet.quiet
       (story_request SampleNet.service SampleNet.context)).
Proof.
  pose proof (generate_story_success SampleNet.service SampleReplies.spoken
                SampleNet.context SampleNet.quiet
                [("text", JStr "One step at a time.");
                 ("audio", JStr "UklGRg==")] eq_refl) as H.
  cbv zeta in H. destruct H as (_ & Hdec & _).
  apply (Hdec "UklGRg==" [x52; x49; x46; x46] eq_refl); [discriminate|reflexivity].
Defined.

(** A reply with status 200 and no schedule, or an empty list, passes. *)
Lemma Gateway_empty_schedule self E tasks user_profile w reply :
  endpoint E (schedule_request self tasks user_profile)
  = Replied {| status_code := 200; body := Some (JObj reply) |} ->
  Py.assoc "schedule" reply = None \/ Py.assoc "schedule" reply = Some (JArr []) ->
  generate_schedule self E tasks user_profile w
  = (Ok {| schedule := JArr [];
           metadata := default (JObj []) (Py.assoc "metadata" reply);
           confidence := default (JNum 0) (Py.assoc "confidence" reply) |},
     after_request w (schedule_request self tasks user_profile)).
Proof.
  intros Hnet Hempty.
  unfold generate_schedule, try_except, bind, requests_post, lift.
  rewrite Hnet. cbn. by destruct Hempty as [-> | ->].
Qed.

End GatewayMore.

(** ** The generation log *)

Section LogFacts.

Import Routes.

Lemma log_path_not_schedule th E : log_path th E <> schedule_path th E.
Proof.
  unfold log_path, schedule_path. intros H.
  apply String.app_inj in H. discriminate H.
Qed.

Lemma log_path_not_story th E : log_path th E <> story_path th E.
Proof.
  unfold log_path, story_path. intros H.
  apply String.app_inj in H. discriminate H.
Qed.

Lemma log_generation_run th E generation_type success metadata w entries :
  log_of th E w = JArr entries ->
  log_generation th E generation_type success metadata w
  = (Ok tt,
     written w (log_path th E)
       (JArr (entries ++ [log_entry E generation_type success metadata]))).
Proof.
  unfold log_of, log_generation. fold (log_path th E).
  by intros ->.
Qed.

(** X18. [log_generation] only adds: when the log of the day is absent or
    holds a list, it holds afterwards the same entries followed by one new
    entry with the given type and success flag, every other document is
    untouched and no request is sent. When the log holds something that is
    not a list, [log_generation] raises and writes nothing. *)
Theorem log_generation_appends th E generation_type success metadata w :
  (forall entries,
      log_of th E w = JArr entries ->
      exists w',
        log_generation th E generation_type success metadata w = (Ok tt, w')
        /\ log_of th E w'
           = JArr (entries ++ [log_entry E generation_type success metadata])
        /\ (forall path, path <> log_path th E ->
                         text_files w' !! path = text_files w !! path)
        /\ sent w' = sent w)
  /\ ((forall entries, log_of th E w <> JArr entries) ->
      exists e, log_generation th E generation_type success metadata w
                = (Raise e, w)
                /\ exn_cls e = AttributeError).
Proof.
  split.
  - intros entries Hlog. eexists. split; [by apply log_generation_run|].
    unfold log_of, written. cbn [text_files sent].
    rewrite lookup_insert_eq. split; [done|]. split; [|done].
    intros path Hne. by rewrite lookup_insert_ne.
  - intros Hbad. unfold log_generation, log_of in *.
    fold (log_path th E).
    destruct (default (JArr []) (text_files w !! log_path th E)) eqn:Hl;
      try (eexists; split; [reflexivity|done]).
    by destruct (Hbad items).
Qed.

Lemma log_generation_appends_witness :
  exists w',
    log_generation SampleNet.text_handler SampleNet.offline "story" true JNull
      SampleNet.quiet = (Ok tt, w')
    /\ log_of SampleNet.text_handler SampleNet.offline w'
       = JArr [log_entry SampleNet.offline "story" true JNull].
Proof.
  destruct (log_generation_appends SampleNet.text_handler SampleNet.offline
              "story" true JNull SampleNet.quiet) as [Hok _].
  destruct (Hok [] eq_refl) as (w' & Hrun & Hlog & _).
  exists w'. split; [exact Hrun|exact Hlog].
Defined.

End LogFacts.

(** ** More about the schedule route *)

Section ScheduleRouteMore.

Import Routes.

Lemma route_with_tasks model_service text_handler E fields item items w :
  Py.assoc "tasks" fields = Some (JArr (item :: items)) ->
  Routes.generate_schedule model_service text_handler E (JObj fields) w
  = try_except
      (bind (Gateway.generate_schedule model_service E (item :: items)
               (default (JObj []) (Py.assoc "user_profile" fields)))
         (fun result =>
            bind (save_schedule text_handler E (Gateway.schedule result)
                    (JObj [("tasks", JArr (item :: items));
                           ("user_profile",
                            default (JObj []) (Py.assoc "user_profile" fields));
                           ("confidence", Gateway.confidence result)]))
              (fun info =>
                 bind (log_generation text_handler E "schedule" true
                         (JObj [("schedule_id", JStr (id info));
                                ("task_count",
                                 JNum (inject_Z
                                         (Z.of_nat (List.length (item :: items)))))]))
                   (fun _ =>
                      ret (JObj [("schedule", Gateway.schedule result);
                                 ("scheduleId", JStr (id info));
                                 ("taskCount", JNum (inject_Z (task_count info)));
                                 ("confidence", Gateway.confidence result);
                                 ("metadata", Gateway.metadata result);
                                 ("success", JBool true)], 200)))))
      (fun e =>
         if is_value_error e then
           bind (log_generation text_handler E "schedule" false
                   (JObj [("error", JStr (str_exn e))]))
             (fun _ => ret (failure ("Failed to parse schedule: " ++ str_exn e)
                              500))
         else
           bind (log_generation text_handler E "schedule" false
                   (JObj [("error", JStr (str_exn e))]))
             (fun _ => ret (failure (str_exn e) 500)))
      w.
Proof.
  intros Htasks.
  unfold Routes.generate_schedule, try_except, bind, lift.
  destruct fields as [|kv fields]; [done|].
  cbn [Py.truthy negb Py.contains Py.getitem Py.get].
  rewrite Htasks.
  rewrite bool_decide_eq_true_2 by (by eexists).
  reflexivity.
Qed.

(** X19. A body that is empty or has no [tasks] is answered 400 "Missing
    'tasks' field in request body", and a body whose [tasks] is anything
    but a non-empty list is answered 400 "Tasks must be a non-empty array";
    in both cases no request is sent and nothing is stored or logged. *)
Theorem generate_schedule_route_rejects model_service text_handler E w :
  (forall data,
      Py.truthy data = false
      \/ (exists fields, data = JObj fields /\ Py.assoc "tasks" fields = None) ->
      Routes.generate_schedule model_service text_handler E data w
      = (Ok (failure "Missing 'tasks' field in request body" 400), w))
  /\ (forall fields tasks,
         Py.assoc "tasks" fields = Some tasks ->
         (forall item items, tasks <> JArr (item :: items)) ->
         Routes.generate_schedule model_service text_handler E (JObj fields) w
         = (Ok (failure "Tasks must be a non-empty array" 400), w)).
Proof.
  split.
  - intros data [Hfalsy|(fields & -> & Hnone)].
    + unfold Routes.generate_schedule, try_except, bind. by rewrite Hfalsy.
    + unfold Routes.generate_schedule, try_except, bind, lift.
      destruct fields as [|kv fields]; [done|].
      cbn [Py.truthy negb Py.contains]. rewrite Hnone.
      by rewrite bool_decide_eq_false_2 by (by intros [? ?]).
  - intros fields tasks Htasks Hshape.
    unfold Routes.generate_schedule, try_except, bind, lift.
    destruct fields as [|kv fields]; [done|].
    cbn [Py.truthy negb Py.contains Py.getitem Py.get].
    rewrite Htasks.
    rewrite bool_decide_eq_true_2 by (by eexists).
    cbn. destruct tasks as [| | | |[|item items]|]; try done.
    by destruct (Hshape item items).
Qed.

Lemma generate_schedule_route_rejects_witness :
  Routes.generate_schedule SampleNet.service SampleNet.text_handler
    SampleNet.offline JNull SampleNet.quiet
  = (Ok (failure "Missing 'tasks' field in request body" 400), SampleNet.quiet)
  /\ Routes.generate_schedule SampleNet.service SampleNet.text_handler
       SampleNet.offline (JObj [("tasks", JStr "Ice Pack")]) SampleNet.quiet
     = (Ok (failure "Tasks must be a non-empty array" 400), SampleNet.quiet).
Proof.
  destruct (generate_schedule_route_rejects SampleNet.service
              SampleNet.text_handler SampleNet.offline SampleNet.quiet)
    as [Hmissing Hshape].
  split.
  - apply Hmissing. left. reflexivity.
  - apply (Hshape [("tasks", JStr "Ice Pack")] (JStr "Ice Pack") eq_refl).
    discriminate.
Defined.

(** X20. With task names in the body and no reply from the endpoint, the
    route answers 200 with the fallback schedule; [taskCount] is the number
    of entries of the schedule. The schedule is stored as one document, one
    success entry joins the log of the day, and one request was sent. *)
Theorem generate_schedule_route_offline model_service text_handler E fields
    name names w reason entries :
  let tasks := map JStr (name :: names) in
  let user_profile := default (JObj []) (Py.assoc "user_profile" fields) in
  let request := Gateway.schedule_request model_service tasks user_profile in
  let schedule := JArr (plan (name :: names) 11) in
  let task_count := Z.of_nat (List.length (plan (name :: names) 11)) in
  Py.assoc "tasks" fields = Some (JArr tasks) ->
  endpoint E request = Unreachable reason ->
  log_of text_handler E w = JArr entries ->
  Routes.generate_schedule model_service text_handler E (JObj fields) w
  = (Ok (JObj [("schedule", schedule);
               ("scheduleId", JStr (PyStr.take 8 (uuid4 E)));
               ("taskCount", JNum (inject_Z task_count));
               ("confidence", JNum (1 # 2));
               ("metadata", JObj [("source", JStr "fallback")]);
               ("success", JBool true)], 200),
     written
       (written (after_request w request) (schedule_path text_handler E)
          (schedule_document E schedule
             (JObj [("tasks", JArr tasks);
                    ("user_profile", user_profile);
                    ("confidence", JNum (1 # 2))])
             task_count))
       (log_path text_handler E)
       (JArr (entries
              ++ [log_entry E "schedule" true
                    (JObj [("schedule_id", JStr (PyStr.take 8 (uuid4 E)));
                           ("task_count",
                            JNum (inject_Z
                                    (Z.of_nat (List.length (name :: names)))))])]))).
Proof.
  intros tasks user_profile request schedule task_count Htasks Hnet Hlog.
  rewrite (route_with_tasks _ _ _ _ (JStr name) (map JStr names) _ Htasks).
  unfold try_except, bind.
  fold user_profile. change (JStr name :: map JStr names) with tasks.
  rewrite (generate_schedule_falls_back _ _ _ _ _ _ Hnet). fold request.
  unfold Gateway._generate_fallback_schedule.
  unfold tasks. rewrite fallback_loop_plan. cbn [app].
  cbn [Gateway.schedule Gateway.metadata Gateway.confidence].
  fold schedule.
  unfold save_schedule.
  assert (Py.truthy schedule = true) as ->.
  { unfold schedule. cbn [plan]. by destruct (is_posture name), (is_walk name). }
  cbn [negb]. unfold bind, lift, ret, write_json. cbn [Py.len schedule].
  fold task_count. fold (schedule_path text_handler E).
  cbn [id task_count].
  rewrite (log_generation_run _ _ _ _ _ _ entries).
  - rewrite List.length_map. reflexivity.
  - unfold log_of. cbn [text_files].
    change (storage_dir text_handler ++ "/schedules/" ++ "schedule_"
            ++ now_second E ++ "_" ++ PyStr.take 8 (uuid4 E) ++ ".json")
      with (schedule_path text_handler E).
    rewrite lookup_insert_ne by (apply not_eq_sym, log_path_not_schedule).
    exact Hlog.
Qed.

Lemma generate_schedule_route_offline_witness :
  (Routes.generate_schedule SampleNet.service SampleNet.text_handler
     SampleNet.offline (JObj [("tasks", JArr [JStr "Check Posture"])])
     SampleNet.quiet).1
  = Ok (JObj [("schedule", JArr (plan ["Check Posture"] 11));
              ("scheduleId", JStr "1b4e28ba");
              ("taskCount", JNum 3);
              ("confidence", JNum (1 # 2));
              ("metadata", JObj [("source", JStr "fallback")]);
              ("success", JBool true)], 200).
Proof.
  rewrite (generate_schedule_route_offline SampleNet.service
             SampleNet.text_handler SampleNet.offline
             [("tasks", JArr [JStr "Check Posture"])] "Check Posture" []
             SampleNet.quiet "Connection refused" [] eq_refl eq_refl eq_refl).
  reflexivity.
Defined.

(** X21. When the service raises, the route answers 500 with the message
    of the error, prefixed by "Failed to parse schedule: " when the error is
    a [ValueError], stores no schedule and adds one failure entry with that
    message to the log of the day. *)
Theorem generate_schedule_route_logs_failure model_service text_handler E
    fields item items w e w1 entries :
  let user_profile := default (JObj []) (Py.assoc "user_profile" fields) in
  Py.assoc "tasks" fields = Some (JArr (item :: items)) ->
  Gateway.generate_schedule model_service E (item :: items) user_profile w
  = (Raise e, w1) ->
  log_of text_handler E w1 = JArr entries ->
  Routes.generate_schedule model_service text_handler E (JObj fields) w
  = (Ok (failure ((if is_value_error e then "Failed to parse schedule: "
                   else "") ++ str_exn e) 500),
     written w1 (log_path text_handler E)
       (JArr (entries
              ++ [log_entry E "schedule" false
                    (JObj [("error", JStr (str_exn e))])]))).
Proof.
  intros user_profile Htasks Hraise Hlog.
  rewrite (route_with_tasks _ _ _ _ item items _ Htasks).
  unfold try_except, bind. fold user_profile. rewrite Hraise.
  destruct (is_value_error e);
    by rewrite (log_generation_run _ _ _ _ _ _ entries Hlog).
Qed.

Lemma generate_schedule_route_logs_failure_witness :
  (Routes.generate_schedule SampleNet.service SampleNet.text_handler
     SampleNet.overloaded (JObj [("tasks", JArr [JStr "Ice Pack"])])
     SampleNet.quiet).1
  = Ok (failure "Failed to generate schedule: Model API returned status 503"
          500).
Proof.
  rewrite (generate_schedule_route_logs_failure SampleNet.service
             SampleNet.text_handler SampleNet.overloaded
             [("tasks", JArr [JStr "Ice Pack"])] (JStr "Ice Pack") []
             SampleNet.quiet
             (MkExn Exception
                "Failed to generate schedule: Model API returned status 503")
             (after_request SampleNet.quiet
                (Gateway.schedule_request SampleNet.service [JStr "Ice Pack"]
                   (JObj [])))
             [] eq_refl eq_refl eq_refl).
  reflexivity.
Defined.

(** X22. When the endpoint answers with status 200 and no schedule, or an
    empty one, the route answers 500 "Failed to parse schedule: No schedule
    data provided": the empty schedule passes the service and is refused by
    [save_schedule]. Nothing is stored, and the failure is logged. *)
Theorem generate_schedule_route_empty_reply model_service text_handler E fields
    item items w reply entries :
  let user_profile := default (JObj []) (Py.assoc "user_profile" fields) in
  let request :=
    Gateway.schedule_request model_service (item :: items) user_profile in
  Py.assoc "tasks" fields = Some (JArr (item :: items)) ->
  endpoint E request
  = Replied {| status_code := 200; body := Some (JObj reply) |} ->
  Py.assoc "schedule" reply = None \/ Py.assoc "schedule" reply = Some (JArr []) ->
  log_of text_handler E w = JArr entries ->
  Routes.generate_schedule model_service text_handler E (JObj fields) w
  = (Ok (failure "Failed to parse schedule: No schedule data provided" 500),
     written (after_request w request) (log_path text_handler E)
       (JArr (entries
              ++ [log_entry E "schedule" false
                    (JObj [("error", JStr "No schedule data provided")])]))).
Proof.
  intros user_profile request Htasks Hnet Hempty Hlog.
  rewrite (route_with_tasks _ _ _ _ item items _ Htasks).
  unfold try_except, bind. fold user_profile.
  rewrite (Gateway_empty_schedule _ _ _ _ _ _ Hnet Hempty).
  fold request. cbn [Gateway.schedule]. unfold save_schedule. cbn.
  unfold bind.
  by rewrite (log_generation_run _ _ _ _ _ (after_request w request) entries
                Hlog).
Qed.

Lemma generate_schedule_route_empty_reply_witness :
  (Routes.generate_schedule SampleNet.service SampleNet.text_handler
     SampleReplies.blank (JObj [("tasks", JArr [JStr "Ice Pack"])])
     SampleNet.quiet).1
  = Ok (failure "Failed to parse schedule: No schedule data provided" 500).
Proof.
  rewrite (generate_schedule_route_empty_reply SampleNet.service
             SampleNet.text_handler SampleReplies.blank
             [("tasks", JArr [JStr "Ice Pack"])] (JStr "Ice Pack") []
             SampleNet.quiet [("note", JNull)] [] eq_refl eq_refl
             (or_introl eq_refl) eq_refl).
  reflexivity.
Defined.

End ScheduleRouteMore.

(** ** The story route *)

Section StoryRouteFacts.

Import Stories.

Lemma save_story_run th E story_text metadata w :
  story_text <> "" ->
  save_story th E (JStr story_text) metadata w
  = (Ok {| id := PyStr.take 8 (uuid4 E);
           filename := "story_" ++ now_second E ++ "_" ++ PyStr.take 8 (uuid4 E)
                       ++ ".json";
           path := story_path th E;
           text := JStr story_text;
           word_count := Z.of_nat (List.length (PyStr.split story_text));
           char_count := Z.of_nat (String.length story_text);
           created_at := now_iso E |},
     written w (story_path th E) (story_document E story_text metadata)).
Proof.
  intros Hne. unfold save_story. cbn [Py.truthy].
  destruct (String.eqb_spec story_text "") as [|_]; [done|].
  reflexivity.
Qed.

(** The route up to the audio: the story is generated, stored and logged. *)
Lemma story_stored svc th E w story_text audio_data w1 entries :
  story_text <> "" ->
  Gateway.generate_story svc E context w = (Ok (JStr story_text, audio_data), w1) ->
  log_of th E w1 = JArr entries ->
  bind (Gateway.generate_story svc E context)
    (fun story =>
       bind (save_story th E story.1 context)
         (fun text_info =>
            bind (Routes.log_generation th E "story" true
                    (JObj [("story_id", JStr (id text_info))]))
              (fun _ => ret (story, text_info)))) w
  = (Ok ((JStr story_text, audio_data),
         {| id := PyStr.take 8 (uuid4 E);
            filename := "story_" ++ now_second E ++ "_"
                        ++ PyStr.take 8 (uuid4 E) ++ ".json";
            path := story_path th E;
            text := JStr story_text;
            word_count := Z.of_nat (List.length (PyStr.split story_text));
            char_count := Z.of_nat (String.length story_text);
            created_at := now_iso E |}),
     written (written w1 (story_path th E) (story_document E story_text context))
       (log_path th E)
       (JArr (entries
              ++ [log_entry E "story" true
                    (JObj [("story_id", JStr (PyStr.take 8 (uuid4 E)))])]))).
Proof.
  intros Hne Hgen Hlog. unfold bind at 1. rewrite Hgen. cbn [fst].
  unfold bind at 1. rewrite save_story_run by done.
  unfold bind at 1. cbn [id].
  rewrite (log_generation_run _ _ _ _ _ _ entries); [done|].
  unfold log_of, written. cbn [text_files].
  rewrite lookup_insert_ne by (apply not_eq_sym, log_path_not_story).
  exact Hlog.
Qed.

Lemma stories_nonempty n : nth n Gateway.stories "" <> "" \/ (3 <= n)%nat.
Proof.
  destruct n as [|[|[|n]]]; [left; discriminate..|right; lia].
Qed.

(** X23. Without a reply from the endpoint, the story route answers 200
    with the story of the pool at index [time mod 3], its identifier and
    its word count, and no audio; the story is stored, the success is
    logged, one request was sent and the audio disk is untouched. *)
Theorem generate_vibe_story_offline svc th ah E now include_audio_arg
    save_audio_arg fs w reason entries :
  let story_text := nth (Z.to_nat (time_time E mod 3)) Gateway.stories "" in
  let request := Gateway.story_request svc context in
  endpoint E request = Unreachable reason ->
  log_of th E w = JArr entries ->
  generate_vibe_story svc th ah E now include_audio_arg save_audio_arg fs w
  = (Ok (JObj [("storyText", JStr story_text);
               ("storyId", JStr (PyStr.take 8 (uuid4 E)));
               ("wordCount",
                JNum (inject_Z
                        (Z.of_nat (List.length (PyStr.split story_text)))));
               ("success", JBool true)], 200),
     fs,
     written
       (written (after_request w request) (story_path th E)
          (story_document E story_text context))
       (log_path th E)
       (JArr (entries
              ++ [log_entry E "story" true
                    (JObj [("story_id", JStr (PyStr.take 8 (uuid4 E)))])]))).
Proof.
  intros story_text request Hnet Hlog.
  assert (Gateway.generate_story svc E context w
          = (Ok (JStr story_text, None), after_request w request)) as Hgen.
  { unfold Gateway.generate_story, try_except, bind, requests_post.
    fold request. by rewrite Hnet. }
  assert (story_text <> "") as Hne.
  { unfold story_text.
    destruct (stories_nonempty (Z.to_nat (time_time E mod 3))) as [|Hbig]; [done|].
    pose proof (Z.mod_pos_bound (time_time E) 3 ltac:(lia)). lia. }
  unfold generate_vibe_story.
  rewrite (story_stored svc th E w story_text None _ entries Hne Hgen Hlog).
  reflexivity.
Qed.

Lemma generate_vibe_story_offline_witness :
  (generate_vibe_story SampleNet.service SampleNet.text_handler Sample.handler
     SampleNet.offline Sample.ten_am None None Sample.shelf SampleNet.quiet).1
  = (Ok (JObj [("storyText", JStr (nth 2 Gateway.stories ""));
               ("storyId", JStr "1b4e28ba");
               ("wordCount", JNum 27);
               ("success", JBool true)], 200),
     Sample.shelf).
Proof.
  rewrite (generate_vibe_story_offline SampleNet.service SampleNet.text_handler
             Sample.handler SampleNet.offline Sample.ten_am None None
             Sample.shelf SampleNet.quiet "Connection refused" [] eq_refl
             eq_refl).
  vm_compute. reflexivity.
Defined.

(** X24. When the service returns a story with audio bytes and
    [include_audio] is not switched off, the route stores the bytes as
    [story_<id>.wav], in the directory [save_audio] selects, and answers
    with that filename and the URL [/api/audio/story_<id>.wav]; when the
    clip went to the temp directory, [GET /api/audio/<filename>] then
    serves these bytes as audio/wav. *)
Theorem generate_vibe_story_audio svc th ah E now include_audio_arg
    save_audio_arg fs w story_text decoded w1 entries :
  let story_id := PyStr.take 8 (uuid4 E) in
  let name := AudioStore.stored_name (uuid4 E) (Some ("story_" ++ story_id)) "wav" in
  let target := AudioStore.target_dir (query_flag save_audio_arg "false") in
  story_text <> "" -> decoded <> [] ->
  Gateway.generate_story svc E context w
  = (Ok (JStr story_text, Some (Gateway.AudioBytes decoded)), w1) ->
  query_flag include_audio_arg "true" = true ->
  log_of th E w1 = JArr entries ->
  fs !! (target, name) <> Some AudioStore.Dir ->
  exists body w',
    generate_vibe_story svc th ah E now include_audio_arg save_audio_arg fs w
    = (Ok (JObj body, 200),
       <[(target, name) := AudioStore.File decoded now]> fs, w')
    /\ Py.assoc "audioFilename" body = Some (JStr name)
    /\ Py.assoc "audioUrl" body = Some (JStr ("/api/audio/" ++ name))
    /\ Py.assoc "storyText" body = Some (JStr story_text)
    /\ PyStr.endswith name ".wav" = true
    /\ (query_flag save_audio_arg "false" = false ->
        AudioRoutes.get_audio_file ah
          (<[(target, name) := AudioStore.File decoded now]> fs) name
        = AudioRoutes.FileResponse decoded "audio/wav" name).
Proof.
  intros story_id name target Hne Hdata Hgen Hinclude Hlog Hdir.
  destruct (save_audio_ok ah fs now (uuid4 E) decoded
              (Some ("story_" ++ story_id))
              (query_flag save_audio_arg "false") "wav" Hdata Hdir)
    as (md & Hsave & Hname & _ & _).
  fold name target in Hsave, Hname.
  destruct (save_audio_inv _ _ _ _ _ _ _ _ _ _ Hsave)
    as (_ & _ & _ & _ & _ & Hurl).
  fold name in Hurl.
  eexists _, _. split.
  - unfold generate_vibe_story.
    rewrite (story_stored svc th E w story_text _ _ entries Hne Hgen Hlog).
    cbn [fst snd]. rewrite Hinclude.
    assert (audio_truthy (Some (Gateway.AudioBytes decoded)) = true) as ->
      by (by destruct decoded).
    cbn [andb save_audio_value id]. fold story_id. rewrite Hsave.
    reflexivity.
  - cbn [app Py.assoc String.eqb Ascii.eqb Bool.eqb].
    rewrite Hname, Hurl.
    pose proof (stored_name_endswith (uuid4 E) (Some ("story_" ++ story_id)) "wav")
      as Hend.
    fold name in Hend.
    repeat (split; [done|]).
    intros Htemp. unfold target. rewrite Htemp. cbn [AudioStore.target_dir].
    unfold AudioRoutes.get_audio_file.
    rewrite (get_audio_temp _ _ _ decoded now) by apply lookup_insert_eq.
    unfold AudioRoutes.mimetype_of.
    change ("." ++ "wav") with ".wav" in Hend. by rewrite Hend.
Qed.

Lemma generate_vibe_story_audio_witness :
  exists body w',
    generate_vibe_story SampleNet.service SampleNet.text_handler Sample.handler
      SampleReplies.spoken Sample.ten_am None None Sample.shelf SampleNet.quiet
    = (Ok (JObj body, 200),
       <[(AudioStore.Temp, "story_1b4e28ba.wav")
         := AudioStore.File [x52; x49; x46; x46] Sample.ten_am]> Sample.shelf,
       w')
    /\ Py.assoc "audioUrl" body = Some (JStr "/api/audio/story_1b4e28ba.wav").
Proof.
  destruct (generate_vibe_story_audio SampleNet.service SampleNet.text_handler
              Sample.handler SampleReplies.spoken Sample.ten_am None None
              Sample.shelf SampleNet.quiet "One step at a time."
              [x52; x49; x46; x46]
              (after_request SampleNet.quiet
                 (Gateway.story_request SampleNet.service context))
              [])
    as (body & w' & Hrun & _ & Hurl & _).
  - discriminate.
  - discriminate.
  - reflexivity.
  - reflexivity.
  - reflexivity.
  - vm_compute. discriminate.
  - exists body, w'. split; [exact Hrun|exact Hurl].
Defined.

(** X25. When the audio of the reply is not text, the service passes the
    value on and the route fails on it after the story is stored and logged
    as a success: [save_audio] opens [story_<id>.wav], leaves it empty and
    raises a [TypeError]; the route answers 500 and logs a failure. *)
Theorem generate_vibe_story_raw_audio svc th ah E now include_audio_arg
    save_audio_arg fs w story_text v w1 entries :
  let story_id := PyStr.take 8 (uuid4 E) in
  let name := AudioStore.stored_name (uuid4 E) (Some ("story_" ++ story_id)) "wav" in
  let target := AudioStore.target_dir (query_flag save_audio_arg "false") in
  let e := MkExn TypeError
             ("a bytes-like object is required, not '" ++ Py.type_name v ++ "'") in
  story_text <> "" -> Py.truthy v = true ->
  Gateway.generate_story svc E context w
  = (Ok (JStr story_text, Some (Gateway.AudioRaw v)), w1) ->
  query_flag include_audio_arg "true" = true ->
  log_of th E w1 = JArr entries ->
  fs !! (target, name) <> Some AudioStore.Dir ->
  generate_vibe_story svc th ah E now include_audio_arg save_audio_arg fs w
  = (Ok (story_failure e),
     <[(target, name) := AudioStore.File [] now]> fs,
     written
       (written w1 (story_path th E) (story_document E story_text context))
       (log_path th E)
       (JArr (entries
              ++ [log_entry E "story" true
                    (JObj [("story_id", JStr story_id)]);
                  log_entry E "story" false
                    (JObj [("error", JStr (str_exn e))])]))).
Proof.
  intros story_id name target e Hne Htruthy Hgen Hinclude Hlog Hdir.
  unfold generate_vibe_story.
  rewrite (story_stored svc th E w story_text _ _ entries Hne Hgen Hlog).
  cbn [fst snd]. rewrite Hinclude.
  cbn [audio_truthy andb save_audio_value id]. rewrite Htruthy. cbn [negb].
  fold story_id name target.
  destruct (fs !! (target, name)) as [[c m|]|]; [|done|];
    (rewrite (log_generation_run _ _ _ _ _ _
                (entries ++ [log_entry E "story" true
                               (JObj [("story_id", JStr story_id)])]));
     [unfold written; cbn [sent text_files]; rewrite insert_insert_eq;
      rewrite <- app_assoc; reflexivity
     |unfold log_of, written; cbn [text_files]; by rewrite lookup_insert_eq]).
Qed.

Lemma generate_vibe_story_raw_audio_witness :
  (generate_vibe_story SampleNet.service SampleNet.text_handler Sample.handler
     SampleReplies.wrapped Sample.ten_am None None Sample.shelf SampleNet.quiet).1
  = (Ok (story_failure
           (MkExn TypeError "a bytes-like object is required, not 'dict'")),
     <[(AudioStore.Temp, "story_1b4e28ba.wav")
       := AudioStore.File [] Sample.ten_am]> Sample.shelf).
Proof.
  rewrite (generate_vibe_story_raw_audio SampleNet.service
             SampleNet.text_handler Sample.handler SampleReplies.wrapped
             Sample.ten_am None None Sample.shelf SampleNet.quiet
             "One step at a time." (JObj [("data", JStr "UklGRg==")])
             (after_request SampleNet.quiet
                (Gateway.story_request SampleNet.service context))
             []).
  - reflexivity.
  - discriminate.
  - reflexivity.
  - reflexivity.
  - reflexivity.
  - reflexivity.
  - vm_compute. discriminate.
Defined.

(** X26. When the service raises, the story route answers 500 with the
    message of the error and a fixed story text, stores no story, leaves the
    audio disk untouched and adds one failure entry to the log. *)
Theorem generate_vibe_story_failure svc th ah E now include_audio_arg
    save_audio_arg fs w e w1 entries :
  Gateway.generate_story svc E context w = (Raise e, w1) ->
  log_of th E w1 = JArr entries ->
  generate_vibe_story svc th ah E now include_audio_arg save_audio_arg fs w
  = (Ok (JObj [("error", JStr (str_exn e));
               ("success", JBool false);
               ("storyText",
                JStr "Unable to generate story at this time. Remember: every small step counts.")],
         500),
     fs,
     written w1 (log_path th E)
       (JArr (entries
              ++ [log_entry E "story" false
                    (JObj [("error", JStr (str_exn e))])]))).
Proof.
  intros Hgen Hlog. unfold generate_vibe_story.
  unfold bind at 1. rewrite Hgen.
  by rewrite (log_generation_run _ _ _ _ _ _ entries Hlog).
Qed.

Lemma generate_vibe_story_failure_witness :
  (generate_vibe_story SampleNet.service SampleNet.text_handler Sample.handler
     SampleNet.overloaded Sample.ten_am None None Sample.shelf SampleNet.quiet).1
  = (Ok (story_failure
           (MkExn Exception
              "Failed to generate story: Model API returned status 503")),
     Sample.shelf).
Proof.
  rewrite (generate_vibe_story_failure SampleNet.service SampleNet.text_handler
             Sample.handler SampleNet.overloaded Sample.ten_am None None
             Sample.shelf SampleNet.quiet
             (MkExn Exception
                "Failed to generate story: Model API returned status 503")
             (after_request SampleNet.quiet
                (Gateway.story_request SampleNet.service context))
             [] eq_refl eq_refl).
  reflexivity.
Defined.

(** X27. With [include_audio] set to anything but "true", in any case of
    the letters, the story route leaves the audio disk as it was, whatever
    the endpoint answers. *)
Theorem generate_vibe_story_no_audio svc th ah E now include_audio_arg
    save_audio_arg fs w :
  query_flag include_audio_arg "true" = false ->
  (generate_vibe_story svc th ah E now include_audio_arg save_audio_arg fs w).1.2
  = fs.
Proof.
  intros Hoff. unfold generate_vibe_story. rewrite Hoff. cbn [andb].
  destruct (bind _ _ w) as [[[story text_info]|e] w'].
  - by destruct story.2.
  - by destruct (Routes.log_generation _ _ _ _ _ _) as [[?|?] ?].
Qed.

Lemma generate_vibe_story_no_audio_witness :
  (generate_vibe_story SampleNet.service SampleNet.text_handler Sample.handler
     SampleReplies.spoken Sample.ten_am (Some "False") None Sample.shelf
     SampleNet.quiet).1.2
  = Sample.shelf.
Proof.
  apply (generate_vibe_story_no_audio SampleNet.service SampleNet.text_handler
           Sample.handler SampleReplies.spoken Sample.ten_am (Some "False") None
           Sample.shelf SampleNet.quiet).
  reflexivity.
Defined.

End StoryRouteFacts.

(** ** Speech formatting *)

Section SpeechFacts.

Lemma prefix_char c a s :
  String.prefix (String c EmptyString) (String a s) = Ascii.eqb c a.
Proof.
  cbn [String.prefix].
  destruct (ascii_dec c a) as [->|Hne].
  - rewrite Ascii.eqb_refl. by destruct s.
  - symmetry. by apply Ascii.eqb_neq.
Qed.

Lemma contains_char_cons c a s :
  PyStr.contains (String c EmptyString) (String a s)
  = Ascii.eqb c a || PyStr.contains (String c EmptyString) s.
Proof. cbn [PyStr.contains]. by rewrite prefix_char. Qed.

(** Replacing a character by nothing keeps a character out that was not
    there, and leaves none of the character replaced. *)
Lemma replace_char_keeps_out c d s :
  PyStr.contains (String c EmptyString) s = false ->
  PyStr.contains (String c EmptyString)
    (PyStr.replace (String d EmptyString) "" s) = false.
Proof.
  unfold PyStr.replace.
  induction s as [|a s IH]; [done|].
  rewrite contains_char_cons. intros [Hca Hs]%orb_false_iff.
  cbn [PyStr.replace_from]. rewrite prefix_char.
  destruct (Ascii.eqb d a); cbn [String.length Nat.sub].
  - by apply IH.
  - rewrite contains_char_cons, Hca. by apply IH.
Qed.

Lemma replace_char_removes c s :
  PyStr.contains (String c EmptyString)
    (PyStr.replace (String c EmptyString) "" s) = false.
Proof.
  unfold PyStr.replace.
  induction s as [|a s IH]; [done|].
  cbn [PyStr.replace_from]. rewrite prefix_char.
  destruct (Ascii.eqb c a) eqn:Hca; cbn [String.length Nat.sub].
  - exact IH.
  - by rewrite contains_char_cons, Hca, IH.
Qed.

(** X28. The text [format_for_speech] returns has no asterisk and no
    underscore in it. *)
Theorem format_for_speech_strips text :
  PyStr.contains "*" (Speech.format_for_speech text) = false
  /\ PyStr.contains "_" (Speech.format_for_speech text) = false.
Proof.
  unfold Speech.format_for_speech. split.
  - apply replace_char_keeps_out, replace_char_removes.
  - apply replace_char_removes.
Qed.

Lemma replace_from_absent old new s :
  PyStr.contains old s = false -> PyStr.replace_from old new 0 s = s.
Proof.
  induction s as [|a s IH]; [done|].
  cbn [PyStr.contains PyStr.replace_from].
  intros [-> Hs]%orb_false_iff. by rewrite IH.
Qed.

(** A text with none of the sequences ". ", "! ", "? " and neither
    asterisk nor underscore comes back from [format_for_speech] as it
    is. *)
Theorem format_for_speech_plain text :
  PyStr.contains ". " text = false ->
  PyStr.contains "! " text = false ->
  PyStr.contains "? " text = false ->
  PyStr.contains "*" text = false ->
  PyStr.contains "_" text = false ->
  Speech.format_for_speech text = text.
Proof.
  intros H1 H2 H3 H4 H5. unfold Speech.format_for_speech, PyStr.replace.
  rewrite (replace_from_absent ". " _ text H1).
  rewrite (replace_from_absent "! " _ text H2).
  rewrite (replace_from_absent "? " _ text H3).
  rewrite (replace_from_absent "*" _ text H4).
  by rewrite (replace_from_absent "_" _ text H5).
Qed.

Lemma format_for_speech_plain_witness :
  Speech.format_for_speech "Breathe in, breathe out."
  = "Breathe in, breathe out.".
Proof.
  apply (format_for_speech_plain "Breathe in, breathe out."); reflexivity.
Defined.

(** Pauses are added after the ends of sentences inside the text, and
    emphasis marks go. *)
Example format_for_speech_sample :
  Speech.format_for_speech "Well *done*! Rest now. Ready? Go_on."
  = "Well done!.. Rest now... Ready?.. Goon.".
Proof. reflexivity. Qed.

End SpeechFacts.

(** ** The models *)

Section ModelFacts.

(** X29. [from_dict] undoes [to_dict], for users and for tasks. *)
Theorem models_round_trip :
  (forall u, UserModel.from_dict (UserModel.to_dict u) = Ok u)
  /\ (forall t, TaskModel.from_dict (TaskModel.to_dict t) = Ok t).
Proof. split; by intros []. Qed.

(** [from_dict] of a dictionary without the keys gives a user without
    id and name and with progress 0.0, and a task that is not completed;
    [to_dict] of these has every key, so that [to_dict] after [from_dict]
    completes a dictionary; on a value that is not a dictionary [from_dict]
    raises an [AttributeError]. *)
Theorem models_defaults :
  (forall u, UserModel.from_dict (JObj []) = Ok u ->
             UserModel.to_dict u
             = JObj [("userId", JNull); ("name", JNull);
                     ("overallProgress", JNum 0)])
  /\ (forall t, TaskModel.from_dict (JObj []) = Ok t ->
                TaskModel.to_dict t
                = JObj [("id", JNull); ("label", JNull); ("icon", JNull);
                        ("completed", JBool false)])
  /\ (forall data, (forall fields, data <> JObj fields) ->
                   exists e1 e2,
                     UserModel.from_dict data = Raise e1
                     /\ TaskModel.from_dict data = Raise e2
                     /\ exn_cls e1 = AttributeError
                     /\ exn_cls e2 = AttributeError).
Proof.
  split; [|split].
  - by intros u [= <-].
  - by intros t [= <-].
  - intros data Hnot.
    destruct data; try (by eexists _, _); by destruct (Hnot fields).
Qed.

End ModelFacts.

(** ** The database connection *)

Section MongoFacts.

Import Mongo.

(** Once [get_db] has connected a closed database and returned its
    handle, it returns the same handle again, whatever the driver would do
    and without a change of state: the connection is made once. After
    [close] the state is the closed one again. *)
Theorem get_db_connects_once drv cfg self db self1 :
  _client self = None -> _db self = None ->
  get_db drv cfg self = (Ok (Some db), self1) ->
  (forall drv', get_db drv' cfg self1 = (Ok (Some db), self1))
  /\ (forall drv', connect drv' cfg self1 = (Ok tt, self1))
  /\ close self1 = {| _client := None; _db := None |}.
Proof.
  intros Hc Hd Hget.
  unfold get_db, connect in Hget. rewrite Hd, Hc in Hget.
  destruct (mongo_client drv (MONGODB_URI cfg)) as [client|e]; [|done].
  destruct (select_db drv client (MONGODB_DB cfg)) as [d|e]; [|done].
  cbn in Hget. injection Hget as <- <-.
  done.
Qed.

Lemma get_db_connects_once_witness :
  exists db self1,
    get_db SampleMongo.strict SampleMongo.plain SampleMongo.fresh
    = (Ok (Some db), self1)
    /\ get_db SampleMongo.strict SampleMongo.plain self1 = (Ok (Some db), self1).
Proof.
  eexists _, _. split; [reflexivity|].
  apply (get_db_connects_once SampleMongo.strict SampleMongo.plain
           SampleMongo.fresh _ _ eq_refl eq_refl eq_refl).
Defined.

(** X30. When the driver makes the client and then refuses the database,
    [get_db] raises and keeps the client; from then on [get_db] returns
    [None] without raising and without asking the driver, until [close]. *)
Theorem get_db_stuck drv cfg self client e :
  _client self = None -> _db self = None ->
  mongo_client drv (MONGODB_URI cfg) = Ok client ->
  select_db drv client (MONGODB_DB cfg) = Raise e ->
  let stuck := {| _client := Some client; _db := None |} in
  get_db drv cfg self = (Raise e, stuck)
  /\ (forall drv', get_db drv' cfg stuck = (Ok None, stuck))
  /\ close stuck = {| _client := None; _db := None |}.
Proof.
  intros Hc Hd Hclient Hselect stuck.
  split; [|split].
  - unfold get_db, connect. rewrite Hd, Hc, Hclient, Hselect.
    destruct self. by simplify_eq/=.
  - done.
  - done.
Qed.

Lemma get_db_stuck_witness :
  get_db SampleMongo.strict SampleMongo.config SampleMongo.fresh
  = (Raise (MkExn Exception "database names cannot contain the character ' '"),
     {| _client := Some 1%nat; _db := None |})
  /\ get_db SampleMongo.strict SampleMongo.config
       {| _client := Some 1%nat; _db := None |}
     = (Ok None, {| _client := Some 1%nat; _db := None |}).
Proof.
  pose proof (get_db_stuck SampleMongo.strict SampleMongo.config
                SampleMongo.fresh 1%nat
                (MkExn Exception
                   "database names cannot contain the character ' '")
                eq_refl eq_refl eq_refl eq_refl) as H.
  cbv zeta in H. destruct H as (Hraise & Hstuck & _).
  split; [exact Hraise|apply Hstuck].
Defined.

End MongoFacts.
